(** * Dependency scanner of langchain-auto-upgrade

    A shallow embedding of [src/tools/dependency_scanner.py]: the project
    type detection, the requirements.txt / package.json / pom.xml parsers,
    the per-dependency upgrade checks and the report assembled by [_run].

    Python [str] values are modelled as [string] (characters read as
    Latin-1); dicts produced by the parsers as records; exceptions that the
    code catches as an explicit error result. *)

From Stdlib Require Import String Ascii List ZArith Bool Arith Lia Setoid Morphisms.
Import ListNotations.
Open Scope string_scope.
Set Warnings "-register-all".

(** ** Python string primitives *)

Module PyStr.

(** [str.isspace] on a Latin-1 character. *)
Definition is_space (c : ascii) : bool :=
  let n := nat_of_ascii c in
  (((9 <=? n) && (n <=? 13)) || ((28 <=? n) && (n <=? 32))
  || (n =? 133) || (n =? 160))%nat.

(** Line boundaries recognised by [str.splitlines] (besides "\r\n"). *)
Definition is_line_break (c : ascii) : bool :=
  let n := nat_of_ascii c in
  (((10 <=? n) && (n <=? 13)) || ((28 <=? n) && (n <=? 30)) || (n =? 133))%nat.

Fixpoint lstrip (s : string) : string :=
  match s with
  | EmptyString => EmptyString
  | String c r => if is_space c then lstrip r else s
  end.

Fixpoint rstrip (s : string) : string :=
  match s with
  | EmptyString => EmptyString
  | String c r =>
      let r' := rstrip r in
      if (r' =? "") && is_space c then EmptyString else String c r'
  end.

(** [s.strip()] *)
Definition strip (s : string) : string := rstrip (lstrip s).

(** [s.startswith(p)] *)
Definition startswith (p s : string) : bool := prefix p s.

(** [s] with the prefix [p] removed, when [s] starts with [p]. *)
Fixpoint strip_prefix (p s : string) : option string :=
  match p, s with
  | EmptyString, _ => Some s
  | String a p', String b s' =>
      if Ascii.eqb a b then strip_prefix p' s' else None
  | String _ _, EmptyString => None
  end.

(** [s.split(sep, 1)] when [sep] occurs in [s]: the text before and after
    its first occurrence; [None] when [sep] does not occur. *)
Fixpoint split_once (sep s : string) : option (string * string) :=
  match strip_prefix sep s with
  | Some after => Some (EmptyString, after)
  | None =>
      match s with
      | EmptyString => None
      | String c r =>
          match split_once sep r with
          | Some (b, a) => Some (String c b, a)
          | None => None
          end
      end
  end.

(** [sub in s] *)
Definition contains (sub s : string) : bool :=
  match split_once sub s with Some _ => true | None => false end.

(** [s.split(sep)[0]] *)
Definition split_first (sep s : string) : string :=
  match split_once sep s with Some (b, _) => b | None => s end.

(** [s[1:]] *)
Definition drop1 (s : string) : string :=
  match s with EmptyString => EmptyString | String _ r => r end.

Fixpoint splitlines_from (cur s : string) : list string :=
  match s with
  | EmptyString => if cur =? "" then [] else [cur]
  | String c r =>
      if Ascii.eqb c "013"%char then
        match r with
        | String d r' =>
            if Ascii.eqb d "010"%char then cur :: splitlines_from "" r'
            else cur :: splitlines_from "" r
        | EmptyString => [cur]
        end
      else if is_line_break c then cur :: splitlines_from "" r
      else splitlines_from (cur ++ String c "") r
  end.

(** [s.splitlines()] *)
Definition splitlines (s : string) : list string := splitlines_from "" s.

Fixpoint split_newline_from (cur s : string) : list string :=
  match s with
  | EmptyString => [cur]
  | String c r =>
      if Ascii.eqb c "010"%char then cur :: split_newline_from "" r
      else split_newline_from (cur ++ String c "") r
  end.

(** [s.split("\n")] *)
Definition split_newline (s : string) : list string := split_newline_from "" s.

Fixpoint join (sep : string) (l : list string) : string :=
  match l with
  | [] => ""
  | [x] => x
  | x :: r => x ++ sep ++ join sep r
  end.

End PyStr.

Import PyStr.

Example splitlines_crlf :
  splitlines ("a" ++ String "013" (String "010" "b") ++ String "010" "") = ["a"; "b"].
Proof. reflexivity. Qed.

Example strip_spaces : strip "  a b  " = "a b".
Proof. reflexivity. Qed.

(** ** Data model *)

(** The dicts appended by the parsers.  A requirements.txt record has the
    keys name/version/constraint/file, a package.json record adds type, a
    pom.xml record has name/group_id/artifact_id/version/file; an absent key
    is [None]. *)
Record Dependency := mkDependency {
  dep_name : string;
  dep_version : string;
  dep_constraint : option string;
  dep_type : option string;
  dep_group_id : option string;
  dep_artifact_id : option string;
  dep_file : string
}.

(** The dicts returned by the [_check_*_upgrade] methods. *)
Record UpgradeCandidate := mkCandidate {
  cand_name : string;
  cand_group_id : option string;
  cand_artifact_id : option string;
  cand_current_version : string;
  cand_latest_version : string;
  cand_type : option string;
  cand_file : string
}.

(** Values returned by [json.loads]; an object keeps the key order of the
    Python dict, one entry per key. *)
Inductive json : Type :=
| JNull
| JBool (b : bool)
| JNum (z : Z)
| JStr (s : string)
| JArr (l : list json)
| JObj (kvs : list (string * json)).

(** ** Parsers: [dependencies] list plus exceptions

    Each parser appends to a local [dependencies] list inside a [try]; an
    exception ends the [try] block and the list built so far is returned.
    [PM] threads that list and reports whether the block raised. *)

Definition PM (A : Type) : Type :=
  list Dependency -> list Dependency * option A.

Definition pm_ret {A} (a : A) : PM A := fun s => (s, Some a).

Definition pm_bind {A B} (m : PM A) (k : A -> PM B) : PM B :=
  fun s => let (s', r) := m s in
           match r with Some a => k a s' | None => (s', None) end.

Definition pm_raise {A} : PM A := fun s => (s, None).

Definition pm_of_option {A} (o : option A) : PM A :=
  match o with Some a => pm_ret a | None => pm_raise end.

(** [dependencies.append(d)] *)
Definition pm_append (d : Dependency) : PM unit :=
  fun s => ((s ++ [d])%list, Some tt).

Notation "x <- m ;; k" := (pm_bind m (fun x => k))
  (at level 61, m at next level, right associativity).

(** A [for] loop over [l]. *)
Fixpoint pm_for {X} (f : X -> PM unit) (l : list X) : PM unit :=
  match l with
  | [] => pm_ret tt
  | x :: r => _ <- f x ;; pm_for f r
  end.

(** [dependencies = []; try: body; except: log; return dependencies] *)
Definition collect (body : PM unit) : list Dependency := fst (body []).

(** *** [_parse_requirements_txt] *)

(** The body of the [for line in content.splitlines()] loop. *)
Definition requirements_line (file_path : string) (line0 : string) : PM unit :=
  let line := strip line0 in
  if (line =? "") || startswith "#" line then pm_ret tt
  else if contains "==" line then
    nv <- pm_of_option (split_once "==" line) ;;
    let (name, version) := nv in
    pm_append (mkDependency (strip name) (strip version) (Some "==")
                 None None None file_path)
  else if contains ">=" line then
    nv <- pm_of_option (split_once ">=" line) ;;
    let (name, version) := nv in
    pm_append (mkDependency (strip name) (strip version) (Some ">=")
                 None None None file_path)
  else pm_ret tt.

(** [content] is the result of [file_path.read_text()], [None] when it
    raises. *)
Definition _parse_requirements_txt (file_path : string) (content : option string)
  : list Dependency :=
  collect (text <- pm_of_option content ;;
           pm_for (requirements_line file_path) (splitlines text)).

(** *** [_parse_package_json] *)

(** [dep_type in content] for the value returned by [json.loads];
    [None] where Python raises [TypeError]. *)
Definition json_contains (key : string) (v : json) : option bool :=
  match v with
  | JObj kvs => Some (existsb (fun kv => fst kv =? key) kvs)
  | JArr l => Some (existsb (fun e => match e with JStr s => s =? key | _ => false end) l)
  | JStr s => Some (contains key s)
  | _ => None
  end.

(** [content[key]] on a dict; [None] where Python raises. *)
Definition json_getitem (key : string) (v : json) : option json :=
  match v with
  | JObj kvs =>
      match find (fun kv => fst kv =? key) kvs with
      | Some (_, x) => Some x
      | None => None
      end
  | _ => None
  end.

(** [v.items()]; [None] where Python raises [AttributeError]. *)
Definition json_items (v : json) : option (list (string * json)) :=
  match v with JObj kvs => Some kvs | _ => None end.

(** The body of [for name, version in content[dep_type].items()]. *)
Definition package_entry (file_path dep_type : string) (entry : string * json)
  : PM unit :=
  let (name, version) := entry in
  (* [version.startswith] raises on a non-str value *)
  v <- pm_of_option (match version with JStr v => Some v | _ => None end) ;;
  let '(constraint, clean_version) :=
    if startswith "^" v then ("^", drop1 v)
    else if startswith "~" v then ("~", drop1 v)
    else ("^", v) in
  pm_append (mkDependency name clean_version (Some constraint) (Some dep_type)
               None None file_path).

Definition package_dep_type (file_path : string) (content : json) (dep_type : string)
  : PM unit :=
  present <- pm_of_option (json_contains dep_type content) ;;
  if present then
    section <- pm_of_option (json_getitem dep_type content) ;;
    items <- pm_of_option (json_items section) ;;
    pm_for (package_entry file_path dep_type) items
  else pm_ret tt.

(** [loaded] is [json.loads(file_path.read_text())], [None] when reading or
    decoding raises. *)
Definition _parse_package_json (file_path : string) (loaded : option json)
  : list Dependency :=
  collect (content <- pm_of_option loaded ;;
           pm_for (package_dep_type file_path content)
                  ["dependencies"; "devDependencies"]).

(** *** [_parse_pom_xml] *)

(** [matches] is [re.findall(dep_pattern, content)] on the text read from
    [file_path] ([None] when reading raises): the (groupId, artifactId,
    version) groups in document order. *)
Definition _parse_pom_xml (file_path : string)
  (matches : option (list (string * string * string))) : list Dependency :=
  collect (ms <- pm_of_option matches ;;
           pm_for (fun '(group_id, artifact_id, version) =>
                     pm_append (mkDependency (group_id ++ ":" ++ artifact_id)
                                  version None None (Some group_id)
                                  (Some artifact_id) file_path)) ms).

Example requirements_sample :
  _parse_requirements_txt "/r/requirements.txt"
    (Some ("a == 1.0" ++ String "010" "c~=3" ++ String "010" "d>=4,<5"))
  = [mkDependency "a" "1.0" (Some "==") None None None "/r/requirements.txt";
     mkDependency "d" "4,<5" (Some ">=") None None None "/r/requirements.txt"].
Proof. reflexivity. Qed.

Example package_partial :
  _parse_package_json "/p"
    (Some (JObj [("dependencies", JObj [("x", JStr "~1"); ("y", JNum 2); ("z", JStr "3")])]))
  = [mkDependency "x" "1" (Some "~") (Some "dependencies") None None "/p"].
Proof. reflexivity. Qed.

(** ** Project tree and [_detect_project_type] *)

(** A path below the project root, as its components. *)
Definition path := list string.

Definition basename (p : path) : string := last p "".

(** [str(project_path / p)] *)
Definition path_str (root : string) (p : path) : string := root ++ "/" ++ join "/" p.

(** An entry of the project tree, in the order [Path.glob] walks it, with
    the result of [read_text()] on it ([None] when reading raises, e.g. on
    a directory). *)
Definition entry := (path * option string)%type.

Definition tree := list entry.

Fixpoint endswith (suf s : string) : bool :=
  (s =? suf) || match s with EmptyString => false | String _ r => endswith suf r end.

(** [list(project_path.glob("**/" + name))] *)
Definition glob_name (name : string) (t : tree) : list entry :=
  filter (fun e => basename (fst e) =? name) t.

(** [list(project_path.glob("**/*" + suffix))] *)
Definition glob_suffix (suffix : string) (t : tree) : list entry :=
  filter (fun e => endswith suffix (basename (fst e))) t.

Inductive ProjectType := Python | Nodejs | Maven | Gradle | Dotnet.

Definition _detect_project_type (t : tree) : option ProjectType * list entry :=
  let requirements_txt := glob_name "requirements.txt" t in
  let setup_py := glob_name "setup.py" t in
  let pyproject_toml := glob_name "pyproject.toml" t in
  match (requirements_txt ++ setup_py ++ pyproject_toml)%list with
  | _ :: _ => (Some Python, (requirements_txt ++ setup_py ++ pyproject_toml)%list)
  | [] =>
  match glob_name "package.json" t with
  | (_ :: _) as package_json => (Some Nodejs, package_json)
  | [] =>
  match glob_name "pom.xml" t with
  | (_ :: _) as pom_xml => (Some Maven, pom_xml)
  | [] =>
  match (glob_name "build.gradle" t ++ glob_name "build.gradle.kts" t)%list with
  | (_ :: _) as build_gradle => (Some Gradle, build_gradle)
  | [] =>
  match glob_suffix ".csproj" t with
  | (_ :: _) as csproj_files => (Some Dotnet, csproj_files)
  | [] => (None, [])
  end end end end end.

(** ** External collaborators *)

(** Outcome of [subprocess.run(..., capture_output=True, text=True)]. *)
Inductive ProcResult :=
| ProcRaised
| ProcDone (returncode : Z) (stdout : string).

(** The part of the Maven Central answer the code reads:
    [data["response"]["numFound"]] and the [latestVersion] of each document
    ([None] for a document without it). *)
Record MavenBody := mkMavenBody {
  numFound : Z;
  docs : list (option string)
}.

(** Outcome of [requests.get(url)]; the body is [None] when
    [response.json()] or the key lookups raise. *)
Inductive HttpResult :=
| HttpRaised
| HttpResponse (status_code : Z) (body : option MavenBody).

(** The library functions and services the scanner calls. *)
Record Env := mkEnv {
  json_loads : string -> option json;
  findall_dep_pattern : string -> list (string * string * string);
  pip_index_versions : string -> ProcResult;
  npm_view_version : string -> ProcResult;
  maven_search : string -> string -> HttpResult
}.

(** ** Upgrade checks

    The body of each [try] returns [Some r] for a normal [return r] and
    [None] when it raises; the [except] clause turns a raise into
    [return None]. *)

Definition catch {A} (r : option (option A)) : option A :=
  match r with Some x => x | None => None end.

(** [re.findall] of the pattern "Available versions: " followed by a
    greedy [.]-group on the pip output: [.] stops at a newline, so each line yields the text after the
    first occurrence of the literal part. *)
Definition available_versions (output : string) : list string :=
  flat_map (fun line => match split_once "Available versions: " line with
                        | Some (_, rest) => [rest]
                        | None => []
                        end) (split_newline output).

Definition _check_python_upgrade (env : Env) (dependency : Dependency)
  : option UpgradeCandidate :=
  let package_name := dep_name dependency in
  let current_version := dep_version dependency in
  catch
    match pip_index_versions env package_name with
    | ProcRaised => None
    | ProcDone returncode output =>
        if Z.eqb returncode 0 then
          match available_versions output with
          | [] => Some None
          | av :: _ =>
              let latest_version := split_first ", " av in
              if negb (latest_version =? current_version) then
                Some (Some (mkCandidate package_name None None current_version
                              latest_version None (dep_file dependency)))
              else Some None
          end
        else Some None
    end.

Definition _check_nodejs_upgrade (env : Env) (dependency : Dependency)
  : option UpgradeCandidate :=
  let package_name := dep_name dependency in
  let current_version := dep_version dependency in
  catch
    match npm_view_version env package_name with
    | ProcRaised => None
    | ProcDone returncode output =>
        if Z.eqb returncode 0 then
          let latest_version := strip output in
          if negb (latest_version =? current_version) then
            Some (Some (mkCandidate package_name None None current_version
                          latest_version
                          (Some (match dep_type dependency with
                                 | Some t => t | None => "dependencies" end))
                          (dep_file dependency)))
          else Some None
        else Some None
    end.

Definition _check_maven_upgrade (env : Env) (dependency : Dependency)
  : option UpgradeCandidate :=
  catch
    match dep_group_id dependency, dep_artifact_id dependency with
    | Some group_id, Some artifact_id =>
        let current_version := dep_version dependency in
        match maven_search env group_id artifact_id with
        | HttpRaised => None
        | HttpResponse status_code body =>
            if Z.eqb status_code 200 then
              match body with
              | None => None
              | Some data =>
                  if Z.gtb (numFound data) 0 then
                    match docs data with
                    | [] => None
                    | doc0 :: _ =>
                        match doc0 with
                        | None => None
                        | Some latest_version =>
                            if negb (latest_version =? current_version) then
                              Some (Some (mkCandidate
                                (group_id ++ ":" ++ artifact_id)
                                (Some group_id) (Some artifact_id)
                                current_version latest_version None
                                (dep_file dependency)))
                            else Some None
                        end
                    end
                  else Some None
              end
            else Some None
        end
    | _, _ => None
    end.

(** The [if/elif] on [project_type] inside the loop of
    [_find_upgrade_candidates]. *)
Definition check_upgrade (env : Env) (project_type : ProjectType) (dep : Dependency)
  : option UpgradeCandidate :=
  match project_type with
  | Python => _check_python_upgrade env dep
  | Nodejs => _check_nodejs_upgrade env dep
  | Maven => _check_maven_upgrade env dep
  | Gradle | Dotnet => None
  end.

Fixpoint _find_upgrade_candidates (env : Env) (project_type : ProjectType)
  (dependencies : list Dependency) : list UpgradeCandidate :=
  match dependencies with
  | [] => []
  | dep :: rest =>
      match check_upgrade env project_type dep with
      | Some candidates => candidates :: _find_upgrade_candidates env project_type rest
      | None => _find_upgrade_candidates env project_type rest
      end
  end.

(** ** [_parse_dependencies] and [_run] *)

Definition parse_file (env : Env) (root : string) (project_type : ProjectType)
  (file : entry) : list Dependency :=
  let (p, content) := file in
  match project_type with
  | Python =>
      if basename p =? "requirements.txt"
      then _parse_requirements_txt (path_str root p) content else []
  | Nodejs =>
      if basename p =? "package.json"
      then _parse_package_json (path_str root p)
             (match content with Some c => json_loads env c | None => None end)
      else []
  | Maven =>
      if basename p =? "pom.xml"
      then _parse_pom_xml (path_str root p)
             (option_map (findall_dep_pattern env) content)
      else []
  | Gradle | Dotnet => []
  end.

Definition _parse_dependencies (env : Env) (root : string)
  (project_type : ProjectType) (dependency_files : list entry) : list Dependency :=
  flat_map (parse_file env root project_type) dependency_files.

(** The dict returned by [_run]: an [{"error": ...}] dict or the report. *)
Inductive RunResult :=
| RunError (error : string)
| RunReport (project_type : ProjectType) (dependency_files : list string)
            (dependencies : list Dependency)
            (upgrade_candidates : list UpgradeCandidate).

(** [result.get("error")] *)
Definition result_error (r : RunResult) : option string :=
  match r with RunError e => Some e | RunReport _ _ _ _ => None end.

(** [result.get("dependencies")] *)
Definition result_dependencies (r : RunResult) : option (list Dependency) :=
  match r with RunError _ => None | RunReport _ _ d _ => Some d end.

(** [_run]: the argument [project_path] is overwritten with
    [Path(REPO_LOCAL_PATH)], so the scanned tree is the one at
    [repo_local_path]; [fs] is [None] when that path does not exist.
    ([REPO_LOCAL_PATH] is imported from [config.settings], which as shipped
    defines [PROJECT_PATH] instead; it is taken here as a configured
    string.) *)
Definition _run (env : Env) (repo_local_path : string) (fs : option tree) : RunResult :=
  match fs with
  | None => RunError ("Project path " ++ repo_local_path ++ " does not exist")
  | Some t =>
      let (project_type, dependency_files) := _detect_project_type t in
      match project_type with
      | None => RunError "Could not determine project type"
      | Some project_type =>
          let dependencies := _parse_dependencies env repo_local_path project_type
                                dependency_files in
          let upgrade_candidates := _find_upgrade_candidates env project_type
                                      dependencies in
          RunReport project_type (map (fun f => join "/" (fst f)) dependency_files)
                    dependencies upgrade_candidates
      end
  end.

(** A sample environment: every registry reports version 2.0. *)
Definition env_all_2 : Env :=
  mkEnv (fun _ => None) (fun _ => [])
        (fun _ => ProcDone 0 ("WARNING" ++ String "010" "Available versions: 2.0, 1.0"))
        (fun _ => ProcDone 0 ("2.0" ++ String "010" ""))
        (fun _ _ => HttpResponse 200 (Some (mkMavenBody 1 [Some "2.0"]))).

Example run_python_sample :
  _run env_all_2 "/repo"
       (Some [(["sub"; "requirements.txt"], Some ("a==1.0" ++ String "010" "b>=2.0"));
              (["package.json"], Some "{}")])
  = RunReport Python ["sub/requirements.txt"]
      [mkDependency "a" "1.0" (Some "==") None None None "/repo/sub/requirements.txt";
       mkDependency "b" "2.0" (Some ">=") None None None "/repo/sub/requirements.txt"]
      [mkCandidate "a" None None "1.0" "2.0" None "/repo/sub/requirements.txt"].
Proof. reflexivity. Qed.

(** ** Reading off what the registries report *)

(** The latest version a registry reports for [dep]: the value the check
    binds to [latest_version], or [None] when the lookup raises, exits
    unsuccessfully or yields no version. *)
Definition reported_latest (env : Env) (project_type : ProjectType) (dep : Dependency)
  : option string :=
  match project_type with
  | Python =>
      match pip_index_versions env (dep_name dep) with
      | ProcDone rc out =>
          if Z.eqb rc 0 then
            match available_versions out with
            | av :: _ => Some (split_first ", " av)
            | [] => None
            end
          else None
      | ProcRaised => None
      end
  | Nodejs =>
      match npm_view_version env (dep_name dep) with
      | ProcDone rc out => if Z.eqb rc 0 then Some (strip out) else None
      | ProcRaised => None
      end
  | Maven =>
      match dep_group_id dep, dep_artifact_id dep with
      | Some g, Some a =>
          match maven_search env g a with
          | HttpResponse st (Some data) =>
              if Z.eqb st 200 && Z.gtb (numFound data) 0 then
                match docs data with Some v :: _ => Some v | _ => None end
              else None
          | _ => None
          end
      | _, _ => None
      end
  | Gradle | Dotnet => None
  end.

(** The registry lookup for [dep] raises. *)
Definition lookup_raises (env : Env) (project_type : ProjectType) (dep : Dependency)
  : Prop :=
  match project_type with
  | Python => pip_index_versions env (dep_name dep) = ProcRaised
  | Nodejs => npm_view_version env (dep_name dep) = ProcRaised
  | Maven => exists g a, dep_group_id dep = Some g /\ dep_artifact_id dep = Some a
                         /\ maven_search env g a = HttpRaised
  | Gradle | Dotnet => False
  end.

(** An npm registry that answers 1.0.0 for every package. *)
Definition env_npm_1_0_0 : Env :=
  mkEnv (fun _ => None) (fun _ => []) (fun _ => ProcRaised)
        (fun _ => ProcDone 0 ("1.0.0" ++ String "010" ""))
        (fun _ _ => HttpRaised).

(** ** Lemmas on the upgrade loop *)

Lemma find_upgrade_candidates_app env pt l1 l2 :
  _find_upgrade_candidates env pt (l1 ++ l2)
  = (_find_upgrade_candidates env pt l1 ++ _find_upgrade_candidates env pt l2)%list.
Proof.
  induction l1 as [|d l1 IH]; simpl; [reflexivity|].
  destruct (check_upgrade env pt d); rewrite IH; reflexivity.
Qed.

Ltac eqb_cases :=
  repeat match goal with
  | |- context [String.eqb ?a ?b] =>
      destruct (String.eqb_spec a b)
  end.

(** ** C1 *)

(** C1: a dependency yields an upgrade candidate exactly when the
    registry reports a latest version that differs from its current version
    under exact string comparison; the candidate carries that latest version
    and the current one.  Otherwise the registry reported nothing or the
    very same string.  So "1.0" against a reported "1.0.0" is flagged. *)
Theorem upgrade_candidate_iff_latest_differs :
  (forall env pt dep,
     match check_upgrade env pt dep with
     | Some c => reported_latest env pt dep = Some (cand_latest_version c)
                 /\ cand_latest_version c <> dep_version dep
                 /\ cand_current_version c = dep_version dep
     | None => reported_latest env pt dep = None
               \/ reported_latest env pt dep = Some (dep_version dep)
     end)
  /\ _check_nodejs_upgrade env_npm_1_0_0
       (mkDependency "x" "1.0" (Some "^") (Some "dependencies") None None "/p")
     = Some (mkCandidate "x" None None "1.0" "1.0.0" (Some "dependencies") "/p").
Proof.
  split; [|reflexivity].
  intros env pt dep.
  destruct pt; unfold check_upgrade, reported_latest,
    _check_python_upgrade, _check_nodejs_upgrade, _check_maven_upgrade, catch.
  - destruct (pip_index_versions env (dep_name dep)) as [|rc out]; [now left|].
    destruct (Z.eqb rc 0); [|now left].
    destruct (available_versions out) as [|av rest]; [now left|].
    simpl; eqb_cases; simpl; [right; congruence|auto].
  - destruct (npm_view_version env (dep_name dep)) as [|rc out]; [now left|].
    destruct (Z.eqb rc 0); [|now left].
    simpl; eqb_cases; simpl; [right; congruence|auto].
  - destruct (dep_group_id dep) as [g|]; [|now left].
    destruct (dep_artifact_id dep) as [a|]; [|now left].
    destruct (maven_search env g a) as [|st [data|]]; [now left| |];
      destruct (Z.eqb st 200); simpl; try now left.
    destruct (Z.gtb (numFound data) 0); [|now left].
    destruct (docs data) as [|[v|] rest]; try now left.
    simpl; eqb_cases; simpl; [right; congruence|auto].
  - now left.
  - now left.
Qed.

(** ** C2 *)

(** C2: when the registry lookup for [d] raises, the check of [d] yields no
    candidate and the scan of the surrounding list goes on: the candidates
    of [l1 ++ d :: l2] are those of [l1] followed by those of [l2]. *)
Theorem lookup_failure_isolated env pt l1 d l2
  (Hraise : lookup_raises env pt d) :
  check_upgrade env pt d = None
  /\ _find_upgrade_candidates env pt (l1 ++ d :: l2)
     = (_find_upgrade_candidates env pt l1 ++ _find_upgrade_candidates env pt l2)%list.
Proof.
  assert (Hnone : check_upgrade env pt d = None).
  { destruct pt; unfold lookup_raises in Hraise; unfold check_upgrade,
      _check_python_upgrade, _check_nodejs_upgrade, _check_maven_upgrade, catch.
    - now rewrite Hraise.
    - now rewrite Hraise.
    - destruct Hraise as (g & a & Hg & Ha & Hm).
      now rewrite Hg, Ha, Hm.
    - contradiction.
    - contradiction. }
  split; [exact Hnone|].
  rewrite find_upgrade_candidates_app; simpl.
  now rewrite Hnone.
Qed.

Definition env_pip_raises : Env :=
  mkEnv (fun _ => None) (fun _ => []) (fun _ => ProcRaised)
        (fun _ => ProcRaised) (fun _ _ => HttpRaised).

Lemma lookup_failure_isolated_witness :
  lookup_raises env_pip_raises Python
    (mkDependency "b" "1" (Some "==") None None None "/r")
  /\ check_upgrade env_pip_raises Python
       (mkDependency "b" "1" (Some "==") None None None "/r") = None
  /\ _find_upgrade_candidates env_pip_raises Python
       ([mkDependency "a" "1" (Some "==") None None None "/r"]
        ++ mkDependency "b" "1" (Some "==") None None None "/r"
        :: [mkDependency "c" "1" (Some "==") None None None "/r"])%list
     = (_find_upgrade_candidates env_pip_raises Python
         [mkDependency "a" "1" (Some "==") None None None "/r"]
       ++ _find_upgrade_candidates env_pip_raises Python
         [mkDependency "c" "1" (Some "==") None None None "/r"])%list.
Proof.
  assert (H : lookup_raises env_pip_raises Python
                (mkDependency "b" "1" (Some "==") None None None "/r"))
    by reflexivity.
  split; [exact H|].
  exact (lookup_failure_isolated env_pip_raises Python _ _ _ H).
Defined.

(** ** Lemmas on the parser loops *)

(** [m] never raises and appends exactly [rs]. *)
Definition appends (m : PM unit) (rs : list Dependency) : Prop :=
  forall s, m s = ((s ++ rs)%list, Some tt).

Lemma appends_collect m rs : appends m rs -> collect m = rs.
Proof. intros H; unfold collect; rewrite H; reflexivity. Qed.

Lemma pm_for_appends {X} (f : X -> PM unit) (g : X -> list Dependency) (l : list X) :
  (forall x, In x l -> appends (f x) (g x)) -> appends (pm_for f l) (flat_map g l).
Proof.
  induction l as [|x l IH]; intros H s; simpl.
  - unfold pm_ret; rewrite app_nil_r; reflexivity.
  - unfold pm_bind; rewrite (H x (or_introl eq_refl) s).
    rewrite IH by (intros y Hy; apply H; right; exact Hy).
    rewrite app_assoc; reflexivity.
Qed.

Ltac pm_unfold :=
  unfold pm_bind, pm_of_option, pm_ret, pm_append, pm_raise, collect in *.

(** A line of requirements.txt that yields a record. *)
Definition recognized_line (line : string) : bool :=
  let s := strip line in
  negb ((s =? "") || startswith "#" s) && (contains "==" s || contains ">=" s).

Lemma requirements_line_appends f l :
  appends (requirements_line f l) (collect (requirements_line f l))
  /\ length (collect (requirements_line f l)) = (if recognized_line l then 1 else 0)%nat
  /\ Forall (fun d => dep_constraint d = Some "==" \/ dep_constraint d = Some ">=")
       (collect (requirements_line f l)).
Proof.
  unfold requirements_line, recognized_line, contains; pm_unfold.
  destruct ((strip l =? "") || startswith "#" (strip l)); simpl;
    [|destruct (split_once "==" (strip l)) as [[n v]|]; simpl;
      [|destruct (split_once ">=" (strip l)) as [[n v]|]; simpl]];
    refine (conj _ (conj _ _));
    solve [intros s; rewrite ?app_nil_r; reflexivity | reflexivity
          | repeat constructor; auto].
Qed.

Lemma parse_requirements_some f c :
  _parse_requirements_txt f (Some c)
  = flat_map (fun l => collect (requirements_line f l)) (splitlines c).
Proof.
  apply appends_collect, pm_for_appends.
  intros x _; apply requirements_line_appends.
Qed.

Definition nl : string := String "010" "".

(** *** package.json *)

Definition is_jstr (v : json) : bool := match v with JStr _ => true | _ => false end.

(** The sections [dependencies] and [devDependencies], where present, map
    names to strings. *)
Definition package_ok (kvs : list (string * json)) : bool :=
  forallb (fun dt => match json_getitem dt (JObj kvs) with
                     | None => true
                     | Some (JObj items) => forallb (fun e => is_jstr (snd e)) items
                     | Some _ => false
                     end) ["dependencies"; "devDependencies"].

Lemma existsb_find {A} (p : A -> bool) l :
  existsb p l = match find p l with Some _ => true | None => false end.
Proof.
  induction l as [|x l IH]; simpl; [reflexivity|].
  destruct (p x); simpl; auto.
Qed.

Lemma package_entry_record f dt name v :
  appends (package_entry f dt (name, JStr v)) (collect (package_entry f dt (name, JStr v)))
  /\ collect (package_entry f dt (name, JStr v))
     = [mkDependency name
          (if startswith "^" v then drop1 v else if startswith "~" v then drop1 v else v)
          (Some (if startswith "^" v then "^" else if startswith "~" v then "~" else "^"))
          (Some dt) None None f].
Proof.
  unfold package_entry; pm_unfold; simpl.
  destruct (startswith "^" v); [|destruct (startswith "~" v)];
    split; try reflexivity; intros s; reflexivity.
Qed.

Definition section_records (f dt : string) (content : json) : list Dependency :=
  match json_getitem dt content with
  | Some (JObj items) => flat_map (fun e => collect (package_entry f dt e)) items
  | _ => []
  end.

Lemma package_dep_type_appends f kvs dt :
  match json_getitem dt (JObj kvs) with
  | None => true
  | Some (JObj items) => forallb (fun e => is_jstr (snd e)) items
  | Some _ => false
  end = true ->
  appends (package_dep_type f (JObj kvs) dt) (section_records f dt (JObj kvs)).
Proof.
  intros Hok.
  unfold package_dep_type, section_records, json_contains; pm_unfold.
  rewrite existsb_find.
  unfold json_getitem in *.
  destruct (find (fun kv => fst kv =? dt) kvs) as [[k x]|]; simpl.
  - destruct x; try discriminate; simpl.
    intros s; unfold json_items.
    assert (H : appends (pm_for (package_entry f dt) kvs0)
                  (flat_map (fun e => collect (package_entry f dt e)) kvs0)).
    { apply pm_for_appends; intros [n v] Hin.
      rewrite forallb_forall in Hok.
      specialize (Hok _ Hin); destruct v; try discriminate.
      apply package_entry_record. }
    apply H.
  - intros s; rewrite app_nil_r; reflexivity.
Qed.

Lemma package_json_records f kvs :
  package_ok kvs = true ->
  _parse_package_json f (Some (JObj kvs))
  = flat_map (fun dt => section_records f dt (JObj kvs)) ["dependencies"; "devDependencies"].
Proof.
  intros Hok.
  apply appends_collect, pm_for_appends.
  intros dt Hdt; apply package_dep_type_appends.
  unfold package_ok in Hok; rewrite forallb_forall in Hok.
  exact (Hok dt Hdt).
Qed.

Lemma startswith_empty s : startswith "" s = true.
Proof. destruct s; reflexivity. Qed.

Lemma startswith_char_true c v :
  startswith (String c "") v = true -> exists rest, v = String c rest.
Proof.
  destruct v as [|d rest]; simpl; [discriminate|].
  destruct (ascii_dec c d); [intros _; subst; eauto|discriminate].
Qed.

(** ** C3 *)

(** C3 (as the code does it): a sample with [a==1.0], [b>=2.0], a comment
    and a blank line yields exactly {a, 1.0, ==} and {b, 2.0, >=}.  In
    general each line is stripped; a blank or [#] line yields nothing, and
    any other line yields one record exactly when it contains the substring
    [==] or the substring [>=], with constraint [==] or [>=].  Lines with
    [~=], [<], [<=], [!=], [>] or no operator yield nothing, but [c===1.0]
    contains [==] and yields {c, =1.0, ==}. *)
Theorem requirements_records_by_substring :
  (forall f c,
     length (_parse_requirements_txt f (Some c))
       = length (filter recognized_line (splitlines c))
     /\ Forall (fun d => dep_constraint d = Some "==" \/ dep_constraint d = Some ">=")
          (_parse_requirements_txt f (Some c)))
  /\ _parse_requirements_txt "/r/requirements.txt"
       (Some ("a==1.0" ++ nl ++ "b>=2.0" ++ nl ++ "# comment" ++ nl ++ nl))
     = [mkDependency "a" "1.0" (Some "==") None None None "/r/requirements.txt";
        mkDependency "b" "2.0" (Some ">=") None None None "/r/requirements.txt"]
  /\ map recognized_line ["c~=1.0"; "c<2"; "c<=2"; "c!=1"; "c>1"; "c"; "  # x==1"]
     = [false; false; false; false; false; false; false]
  /\ _parse_requirements_txt "/r/requirements.txt" (Some "c===1.0")
     = [mkDependency "c" "=1.0" (Some "==") None None None "/r/requirements.txt"].
Proof.
  split; [|split; [reflexivity|split; reflexivity]].
  intros f c; rewrite parse_requirements_some.
  induction (splitlines c) as [|l ls [IHlen IHall]]; simpl; [split; [reflexivity|constructor]|].
  destruct (requirements_line_appends f l) as (_ & Hlen & Hall).
  split.
  - rewrite length_app, Hlen, IHlen.
    destruct (recognized_line l); reflexivity.
  - apply Forall_app; split; assumption.
Qed.

(** C3 as stated fails: the line [c===1.0] uses the operator [===], which
    is neither [==] nor [>=], and still yields a record. *)
Lemma requirements_triple_equals_counterexample :
  _parse_requirements_txt "/r/requirements.txt" (Some "c===1.0") <> []
  /\ _parse_requirements_txt "/r/requirements.txt" (Some "c===1.0")
     = [mkDependency "c" "=1.0" (Some "==") None None None "/r/requirements.txt"].
Proof. split; [discriminate|reflexivity]. Qed.

(** ** C4 *)

(** C4: for a package.json whose sections map names to strings, every
    entry of [dependencies] and of [devDependencies] gives a record with its
    name and section; a leading [^] or [~] is removed from the version and
    recorded as the constraint, any other version string is kept as it is.
    Every record comes from such an entry, and the sample
    {"dependencies": {"x": "^1.2.3"}} gives {x, 1.2.3, ^}. *)
Theorem package_json_prefix_handling (f : string) (kvs : list (string * json))
  (dt name v : string) (items : list (string * json))
  (Hok : package_ok kvs = true)
  (Hdt : In dt ["dependencies"; "devDependencies"])
  (Hsec : json_getitem dt (JObj kvs) = Some (JObj items))
  (Hin : In (name, JStr v) items) :
  (exists r, In r (_parse_package_json f (Some (JObj kvs)))
     /\ dep_name r = name /\ dep_type r = Some dt /\ dep_file r = f
     /\ (forall rest, v = String "^" rest ->
           dep_version r = rest /\ dep_constraint r = Some "^")
     /\ (forall rest, v = String "~" rest ->
           dep_version r = rest /\ dep_constraint r = Some "~")
     /\ ((forall rest, v <> String "^" rest /\ v <> String "~" rest) ->
           dep_version r = v))
  /\ (forall r, In r (_parse_package_json f (Some (JObj kvs))) ->
        exists dt' items' name' v',
          In dt' ["dependencies"; "devDependencies"]
          /\ json_getitem dt' (JObj kvs) = Some (JObj items')
          /\ In (name', JStr v') items' /\ dep_name r = name'
          /\ dep_type r = Some dt')
  /\ _parse_package_json f (Some (JObj [("dependencies", JObj [("x", JStr "^1.2.3")])]))
     = [mkDependency "x" "1.2.3" (Some "^") (Some "dependencies") None None f].
Proof.
  rewrite (package_json_records f kvs Hok).
  split; [|split; [|reflexivity]].
  - exists (mkDependency name
          (if startswith "^" v then drop1 v else if startswith "~" v then drop1 v else v)
          (Some (if startswith "^" v then "^" else if startswith "~" v then "~" else "^"))
          (Some dt) None None f).
    split.
    + apply in_flat_map; exists dt; split; [exact Hdt|].
      unfold section_records; rewrite Hsec.
      apply in_flat_map; exists (name, JStr v); split; [exact Hin|].
      rewrite (proj2 (package_entry_record f dt name v)); left; reflexivity.
    + simpl; split; [reflexivity|split; [reflexivity|split; [reflexivity|split; [|split]]]].
      * intros rest ->; simpl; rewrite ?startswith_empty; split; reflexivity.
      * intros rest ->; simpl; rewrite ?startswith_empty; split; reflexivity.
      * intros Hno.
        destruct (startswith "^" v) eqn:E1.
        { destruct (startswith_char_true _ _ E1) as [rest Hr].
          exfalso; exact (proj1 (Hno rest) Hr). }
        destruct (startswith "~" v) eqn:E2; [|reflexivity].
        destruct (startswith_char_true _ _ E2) as [rest Hr].
        exfalso; exact (proj2 (Hno rest) Hr).
  - intros r Hr.
    apply in_flat_map in Hr as [dt' [Hdt' Hr]].
    unfold section_records in Hr.
    destruct (json_getitem dt' (JObj kvs)) as [[| | | | |items']|] eqn:Hsec';
      try contradiction.
    apply in_flat_map in Hr as [[name' x] [Hin' Hr]].
    unfold package_ok in Hok; rewrite forallb_forall in Hok.
    specialize (Hok dt' Hdt'); rewrite Hsec', forallb_forall in Hok.
    specialize (Hok _ Hin'); destruct x as [| | |v'| |]; try discriminate.
    rewrite (proj2 (package_entry_record f dt' name' v')) in Hr.
    destruct Hr as [<-|[]].
    exists dt', items', name', v'; repeat split; assumption.
Qed.

Definition package_sample : list (string * json) :=
  [("name", JStr "app");
   ("dependencies", JObj [("x", JStr "^1.2.3"); ("y", JStr ">=1.0.0")]);
   ("devDependencies", JObj [("z", JStr "~0.1")])].

Lemma package_json_prefix_handling_witness :
  package_ok package_sample = true
  /\ In "dependencies" ["dependencies"; "devDependencies"]
  /\ json_getitem "dependencies" (JObj package_sample)
     = Some (JObj [("x", JStr "^1.2.3"); ("y", JStr ">=1.0.0")])
  /\ In ("y", JStr ">=1.0.0") [("x", JStr "^1.2.3"); ("y", JStr ">=1.0.0")]
  /\ exists r, In r (_parse_package_json "/p" (Some (JObj package_sample)))
       /\ dep_name r = "y" /\ dep_type r = Some "dependencies" /\ dep_file r = "/p"
       /\ ((forall rest, ">=1.0.0" <> String "^" rest /\ ">=1.0.0" <> String "~" rest) ->
             dep_version r = ">=1.0.0").
Proof.
  assert (H1 : package_ok package_sample = true) by reflexivity.
  assert (H2 : In "dependencies" ["dependencies"; "devDependencies"]) by (left; reflexivity).
  assert (H3 : json_getitem "dependencies" (JObj package_sample)
               = Some (JObj [("x", JStr "^1.2.3"); ("y", JStr ">=1.0.0")])) by reflexivity.
  assert (H4 : In ("y", JStr ">=1.0.0") [("x", JStr "^1.2.3"); ("y", JStr ">=1.0.0")])
    by (right; left; reflexivity).
  split; [exact H1|split; [exact H2|split; [exact H3|split; [exact H4|]]]].
  destruct (package_json_prefix_handling "/p" package_sample "dependencies" "y" ">=1.0.0"
              _ H1 H2 H3 H4) as [(r & Hr & Hn & Ht & Hf & _ & _ & Hv) _].
  exists r; repeat split; assumption.
Defined.

(** ** C10 *)

(** C10: an entry whose version starts with neither [^] nor [~] (a bare
    version or a range) is recorded with constraint [^] and its version
    unchanged: the same constraint as the caret-prefixed form.  A package
    listed as [v] in one section and as [^v] in the other gives two records
    that differ only in their section. *)
Theorem package_json_default_caret (f : string) (kvs : list (string * json))
  (dt name v : string) (items : list (string * json))
  (Hok : package_ok kvs = true)
  (Hdt : In dt ["dependencies"; "devDependencies"])
  (Hsec : json_getitem dt (JObj kvs) = Some (JObj items))
  (Hin : In (name, JStr v) items)
  (Hcaret : startswith "^" v = false) (Htilde : startswith "~" v = false) :
  In (mkDependency name v (Some "^") (Some dt) None None f)
     (_parse_package_json f (Some (JObj kvs)))
  /\ _parse_package_json f
       (Some (JObj [("dependencies", JObj [(name, JStr v)]);
                    ("devDependencies", JObj [(name, JStr (String "^" v))])]))
     = [mkDependency name v (Some "^") (Some "dependencies") None None f;
        mkDependency name v (Some "^") (Some "devDependencies") None None f].
Proof.
  split.
  - rewrite (package_json_records f kvs Hok).
    apply in_flat_map; exists dt; split; [exact Hdt|].
    unfold section_records; rewrite Hsec.
    apply in_flat_map; exists (name, JStr v); split; [exact Hin|].
    rewrite (proj2 (package_entry_record f dt name v)), Hcaret, Htilde.
    left; reflexivity.
  - rewrite package_json_records by (unfold package_ok; simpl; reflexivity).
    assert (E1 := proj2 (package_entry_record f "dependencies" name v)).
    assert (E2 := proj2 (package_entry_record f "devDependencies" name (String "^" v))).
    rewrite Hcaret, Htilde in E1.
    unfold section_records; cbn -[collect package_entry].
    rewrite E1, E2; simpl; rewrite startswith_empty; reflexivity.
Qed.

Lemma package_json_default_caret_witness :
  In (mkDependency "y" ">=1.0.0" (Some "^") (Some "dependencies") None None "/p")
     (_parse_package_json "/p" (Some (JObj package_sample))).
Proof.
  apply (package_json_default_caret "/p" package_sample "dependencies" "y" ">=1.0.0"
           [("x", JStr "^1.2.3"); ("y", JStr ">=1.0.0")]);
    try reflexivity.
  - left; reflexivity.
  - right; left; reflexivity.
Defined.

(** ** Lemmas on records produced by the parsers *)

(** Running [m] keeps every record of the list in [P]. *)
Definition pm_keeps {A} (P : Dependency -> Prop) (m : PM A) : Prop :=
  forall s, Forall P s -> Forall P (fst (m s)).

Lemma pm_keeps_ret {A} P (a : A) : pm_keeps P (pm_ret a).
Proof. intros s H; exact H. Qed.

Lemma pm_keeps_raise {A} P : pm_keeps P (@pm_raise A).
Proof. intros s H; exact H. Qed.

Lemma pm_keeps_of_option {A} P (o : option A) : pm_keeps P (pm_of_option o).
Proof. destruct o; [apply pm_keeps_ret|apply pm_keeps_raise]. Qed.

Lemma pm_keeps_append P d : P d -> pm_keeps P (pm_append d).
Proof. intros Hd s H; simpl; apply Forall_app; split; [exact H|constructor; auto]. Qed.

Lemma pm_keeps_bind {A B} P (m : PM A) (k : A -> PM B) :
  pm_keeps P m -> (forall a, pm_keeps P (k a)) -> pm_keeps P (pm_bind m k).
Proof.
  intros Hm Hk s H; unfold pm_bind.
  specialize (Hm s H); destruct (m s) as [s' [a|]]; simpl in *; [apply Hk|]; exact Hm.
Qed.

Lemma pm_keeps_for {X} P (f : X -> PM unit) l :
  (forall x, pm_keeps P (f x)) -> pm_keeps P (pm_for f l).
Proof.
  intros Hf; induction l as [|x l IH]; simpl;
    [apply pm_keeps_ret|apply pm_keeps_bind; auto].
Qed.

Lemma pm_keeps_collect P m : pm_keeps P m -> Forall P (collect m).
Proof. intros H; apply H; constructor. Qed.

(** A record with group and artifact ids is named [group:artifact]. *)
Definition maven_consistent (d : Dependency) : Prop :=
  forall g a, dep_group_id d = Some g -> dep_artifact_id d = Some a ->
              dep_name d = g ++ ":" ++ a.

Definition recorded_from (file_path : string) (d : Dependency) : Prop :=
  dep_file d = file_path /\ maven_consistent d.

Ltac keeps_step :=
  repeat first
    [ apply pm_keeps_collect
    | apply pm_keeps_bind; [|intros ?]
    | apply pm_keeps_for; intros ?
    | apply pm_keeps_of_option
    | apply pm_keeps_ret
    | apply pm_keeps_append; split; [reflexivity|intros ? ? ? ?; discriminate]
    | apply pm_keeps_append; split; [reflexivity|intros ? ? Hg Ha; simpl in *;
                                     injection Hg as <-; injection Ha as <-; reflexivity] ].

Lemma requirements_recorded_from f c :
  Forall (recorded_from f) (_parse_requirements_txt f c).
Proof.
  unfold _parse_requirements_txt; keeps_step.
  unfold requirements_line.
  destruct (_ || _); [keeps_step|].
  destruct (contains "==" _); [|destruct (contains ">=" _)];
    keeps_step; match goal with nv : (string * string)%type |- _ => destruct nv end;
    keeps_step.
Qed.

Lemma package_entry_recorded_from f dt e :
  pm_keeps (recorded_from f) (package_entry f dt e).
Proof.
  destruct e as [name version]; unfold package_entry; keeps_step.
  destruct (startswith "^" _); [|destruct (startswith "~" _)]; keeps_step.
Qed.

Lemma package_dep_type_recorded_from f content dt :
  pm_keeps (recorded_from f) (package_dep_type f content dt).
Proof.
  unfold package_dep_type; keeps_step.
  match goal with b : bool |- _ => destruct b end; keeps_step.
  apply package_entry_recorded_from.
Qed.

Lemma package_recorded_from f loaded :
  Forall (recorded_from f) (_parse_package_json f loaded).
Proof.
  unfold _parse_package_json.
  apply pm_keeps_collect, pm_keeps_bind; [apply pm_keeps_of_option|intros content].
  apply pm_keeps_for; intros dt; apply package_dep_type_recorded_from.
Qed.

Lemma pom_recorded_from f matches :
  Forall (recorded_from f) (_parse_pom_xml f matches).
Proof.
  unfold _parse_pom_xml; keeps_step.
  repeat match goal with p : prod _ _ |- _ => destruct p end.
  keeps_step.
Qed.

Lemma parse_file_recorded_from env root pt e :
  Forall (recorded_from (path_str root (fst e))) (parse_file env root pt e).
Proof.
  destruct e as [p content]; unfold parse_file; simpl.
  destruct pt; try constructor;
    (destruct (basename p =? _); [|constructor]).
  - apply requirements_recorded_from.
  - apply package_recorded_from.
  - apply pom_recorded_from.
Qed.

Lemma parse_dependencies_recorded_from env root pt files :
  Forall (fun d => exists e, In e files /\ recorded_from (path_str root (fst e)) d)
    (_parse_dependencies env root pt files).
Proof.
  apply Forall_forall; intros d Hd.
  unfold _parse_dependencies in Hd; apply in_flat_map in Hd as [e [He Hd]].
  exists e; split; [exact He|].
  exact (proj1 (Forall_forall _ _) (parse_file_recorded_from env root pt e) d Hd).
Qed.

(** ** Lemmas on candidates and on [_run] *)

Lemma check_upgrade_from_dependency env pt d c :
  maven_consistent d -> check_upgrade env pt d = Some c ->
  cand_name c = dep_name d /\ cand_file c = dep_file d
  /\ cand_current_version c = dep_version d.
Proof.
  intros Hm.
  destruct pt; unfold check_upgrade, _check_python_upgrade, _check_nodejs_upgrade,
    _check_maven_upgrade, catch; try discriminate.
  - destruct (pip_index_versions env (dep_name d)) as [|rc out]; [discriminate|].
    destruct (Z.eqb rc 0); [|discriminate].
    destruct (available_versions out); [discriminate|].
    destruct (negb _); [|discriminate].
    intros H; injection H as <-; auto.
  - destruct (npm_view_version env (dep_name d)) as [|rc out]; [discriminate|].
    destruct (Z.eqb rc 0); [|discriminate].
    destruct (negb _); [|discriminate].
    intros H; injection H as <-; auto.
  - destruct (dep_group_id d) as [g|] eqn:Hg; [|discriminate].
    destruct (dep_artifact_id d) as [a|] eqn:Ha; [|discriminate].
    destruct (maven_search env g a) as [|st [data|]]; try discriminate;
      destruct (Z.eqb st 200); try discriminate.
    destruct (Z.gtb (numFound data) 0); [|discriminate].
    destruct (docs data) as [|[v|] rest]; try discriminate.
    destruct (negb _); [|discriminate].
    intros H; injection H as <-; simpl.
    rewrite (Hm g a Hg Ha); auto.
Qed.

Lemma find_upgrade_candidates_from env pt deps :
  Forall maven_consistent deps ->
  Forall (fun c => exists d, In d deps /\ dep_name d = cand_name c
                             /\ dep_file d = cand_file c
                             /\ dep_version d = cand_current_version c)
    (_find_upgrade_candidates env pt deps)
  /\ (length (_find_upgrade_candidates env pt deps) <= length deps)%nat.
Proof.
  induction deps as [|d deps IH]; intros Hall; simpl; [split; [constructor|lia]|].
  inversion Hall as [|? ? Hd Hrest]; subst.
  destruct (IH Hrest) as [IHall IHlen].
  assert (Hmono : Forall (fun c => exists d', In d' (d :: deps) /\ dep_name d' = cand_name c
                                   /\ dep_file d' = cand_file c
                                   /\ dep_version d' = cand_current_version c)
                    (_find_upgrade_candidates env pt deps)).
  { eapply Forall_impl; [|exact IHall].
    intros c (d' & Hin & H); exists d'; split; [right; exact Hin|exact H]. }
  destruct (check_upgrade env pt d) as [c|] eqn:Hc; simpl.
  - destruct (check_upgrade_from_dependency env pt d c Hd Hc) as (H1 & H2 & H3).
    split; [constructor; [exists d; split; [left; reflexivity|auto]|exact Hmono]|lia].
  - split; [exact Hmono|lia].
Qed.

Lemma run_report_parts env root t pt files deps cands :
  _run env root (Some t) = RunReport pt files deps cands ->
  fst (_detect_project_type t) = Some pt
  /\ files = map (fun f => join "/" (fst f)) (snd (_detect_project_type t))
  /\ deps = _parse_dependencies env root pt (snd (_detect_project_type t))
  /\ cands = _find_upgrade_candidates env pt deps.
Proof.
  unfold _run; destruct (_detect_project_type t) as [[pt'|] fs]; simpl;
    [|discriminate].
  intros H; injection H as <- <- <- <-; auto.
Qed.

Lemma run_dependencies_recorded env root t pt files deps cands :
  _run env root (Some t) = RunReport pt files deps cands ->
  Forall (fun d => exists e, In e (snd (_detect_project_type t))
                             /\ recorded_from (path_str root (fst e)) d) deps.
Proof.
  intros H; destruct (run_report_parts _ _ _ _ _ _ _ H) as (_ & _ & -> & _).
  apply parse_dependencies_recorded_from.
Qed.

(** ** Marker files *)

(** The file names [_detect_project_type] looks for. *)
Definition is_marker_name (n : string) : bool :=
  existsb (String.eqb n) ["requirements.txt"; "setup.py"; "pyproject.toml";
                          "package.json"; "pom.xml"; "build.gradle";
                          "build.gradle.kts"]
  || endswith ".csproj" n.

(** The closed marker set the spec lists: requirements.txt, package.json,
    pom.xml, build.gradle and *.csproj. *)
Definition spec_marker_name (n : string) : bool :=
  existsb (String.eqb n) ["requirements.txt"; "package.json"; "pom.xml"; "build.gradle"]
  || endswith ".csproj" n.

Definition no_marker (t : tree) : bool :=
  forallb (fun e => negb (is_marker_name (basename (fst e)))) t.

Lemma filter_nil_iff {A} (p : A -> bool) l :
  filter p l = [] <-> forall x, In x l -> p x = false.
Proof.
  induction l as [|x l IH]; simpl; [split; [intros _ y []|reflexivity]|].
  destruct (p x) eqn:Hx; split.
  - discriminate.
  - intros H; rewrite (H x (or_introl eq_refl)) in Hx; discriminate.
  - intros H y [<-|Hy]; [exact Hx|apply IH; auto].
  - intros H; apply IH; auto.
Qed.

(** Marker files of each project type, in the order the code tries them. *)
Definition python_markers (t : tree) : list entry :=
  (glob_name "requirements.txt" t ++ glob_name "setup.py" t
   ++ glob_name "pyproject.toml" t)%list.

Definition priority_order (t : tree) : list (ProjectType * list entry) :=
  [(Python, python_markers t);
   (Nodejs, glob_name "package.json" t);
   (Maven, glob_name "pom.xml" t);
   (Gradle, (glob_name "build.gradle" t ++ glob_name "build.gradle.kts" t)%list);
   (Dotnet, glob_suffix ".csproj" t)].

(** The first type of the list whose marker files are present. *)
Fixpoint first_match (l : list (ProjectType * list entry)) : option ProjectType * list entry :=
  match l with
  | [] => (None, [])
  | (pt, files) :: rest =>
      match files with [] => first_match rest | _ :: _ => (Some pt, files) end
  end.

Lemma detect_first_match t : _detect_project_type t = first_match (priority_order t).
Proof.
  unfold _detect_project_type, priority_order, python_markers; simpl.
  destruct (_ ++ _ ++ _)%list; [|reflexivity].
  destruct (glob_name "package.json" t); [|reflexivity].
  destruct (glob_name "pom.xml" t); [|reflexivity].
  destruct (_ ++ _)%list; [|reflexivity].
  destruct (glob_suffix ".csproj" t); reflexivity.
Qed.

Lemma first_match_none l :
  fst (first_match l) = None <-> Forall (fun p => snd p = []) l.
Proof.
  induction l as [|[pt files] l IH]; simpl; [split; [constructor|reflexivity]|].
  rewrite Forall_cons_iff; simpl.
  destruct files; [rewrite IH; tauto|split; [discriminate|intros [H _]; discriminate]].
Qed.

Lemma no_marker_iff t :
  no_marker t = true <-> Forall (fun p => snd p = []) (priority_order t).
Proof.
  unfold no_marker, priority_order, python_markers; rewrite forallb_forall.
  split.
  - intros H.
    assert (Hn : forall e, In e t -> is_marker_name (basename (fst e)) = false)
      by (intros e He; apply negb_true_iff, H, He).
    assert (Hg : forall n, In n ["requirements.txt"; "setup.py"; "pyproject.toml";
                                 "package.json"; "pom.xml"; "build.gradle";
                                 "build.gradle.kts"] -> glob_name n t = []).
    { intros n Hin; apply filter_nil_iff; intros e He.
      specialize (Hn e He); unfold is_marker_name in Hn.
      apply orb_false_iff in Hn as [Hn _].
      destruct (basename (fst e) =? n) eqn:Eq; [|reflexivity].
      apply String.eqb_eq in Eq; subst n.
      assert (Hx : existsb (String.eqb (basename (fst e))) [
                 "requirements.txt"; "setup.py"; "pyproject.toml"; "package.json";
                 "pom.xml"; "build.gradle"; "build.gradle.kts"] = true)
        by (apply existsb_exists; exists (basename (fst e));
            split; [exact Hin|apply String.eqb_refl]).
      rewrite Hx in Hn; discriminate. }
    assert (Hs : glob_suffix ".csproj" t = []).
    { apply filter_nil_iff; intros e He.
      specialize (Hn e He); unfold is_marker_name in Hn.
      apply orb_false_iff in Hn as [_ Hn]; exact Hn. }
    repeat constructor; simpl;
      repeat rewrite Hg by (simpl; tauto); rewrite ?Hs; reflexivity.
  - intros Hall e He; apply negb_true_iff.
    inversion Hall as [|? ? Hpy Hall1]; subst.
    inversion Hall1 as [|? ? Hnode Hall2]; subst.
    inversion Hall2 as [|? ? Hmvn Hall3]; subst.
    inversion Hall3 as [|? ? Hgr Hall4]; subst.
    inversion Hall4 as [|? ? Hcs _]; subst; simpl in *.
    apply app_eq_nil in Hpy as [H1 Hpy]; apply app_eq_nil in Hpy as [H2 H3].
    apply app_eq_nil in Hgr as [H6 H7].
    unfold glob_name, glob_suffix in *.
    rewrite filter_nil_iff in H1, H2, H3, Hnode, Hmvn, H6, H7, Hcs.
    unfold is_marker_name; simpl.
    rewrite (H1 e He), (H2 e He), (H3 e He), (Hnode e He), (Hmvn e He),
            (H6 e He), (H7 e He), (Hcs e He).
    reflexivity.
Qed.

Lemma detect_none_iff t :
  fst (_detect_project_type t) = None <-> no_marker t = true.
Proof. rewrite detect_first_match, first_match_none, no_marker_iff; reflexivity. Qed.

Lemma first_match_in l x :
  In x (snd (first_match l)) -> exists p, In p l /\ In x (snd p).
Proof.
  induction l as [|[pt files] l IH]; simpl; [intros []|].
  destruct files as [|f fs]; intros H.
  - destruct (IH H) as (p & Hp & Hx); exists p; auto.
  - exists (pt, f :: fs); auto.
Qed.

Lemma first_match_none_nil l :
  fst (first_match l) = None -> snd (first_match l) = [].
Proof.
  induction l as [|[pt files] l IH]; simpl; [reflexivity|].
  destruct files; [exact IH|discriminate].
Qed.

Lemma glob_name_marker n t e :
  is_marker_name n = true -> In e (glob_name n t) ->
  In e t /\ is_marker_name (basename (fst e)) = true.
Proof.
  intros Hn He; apply filter_In in He as [He Heq].
  apply String.eqb_eq in Heq; rewrite Heq; auto.
Qed.

Lemma detect_files_marker t :
  Forall (fun e => In e t /\ is_marker_name (basename (fst e)) = true)
    (snd (_detect_project_type t)).
Proof.
  apply Forall_forall; intros e He.
  rewrite detect_first_match in He.
  apply first_match_in in He as (p & Hp & He).
  unfold priority_order, python_markers in Hp; simpl in Hp.
  repeat (destruct Hp as [<-|Hp]; simpl in He;
          [repeat (apply in_app_or in He as [He|He]);
           solve [ eapply (glob_name_marker _ t); [|exact He]; reflexivity
                 | apply filter_In in He as [He Hs];
                   split; [exact He|unfold is_marker_name; rewrite Hs, orb_true_r;
                                    reflexivity] ]|]).
  destruct Hp.
Qed.

(** ** C5 *)

(** C5: detection tries the marker files of python, nodejs, maven, gradle
    and dotnet in this order and returns the first type whose marker files
    are present, with those files; so any python marker wins, e.g. over a
    package.json in the same tree. *)
Theorem detection_first_match_wins :
  (forall t, _detect_project_type t = first_match (priority_order t))
  /\ (forall t, map fst (priority_order t) = [Python; Nodejs; Maven; Gradle; Dotnet])
  /\ (forall t, python_markers t <> [] ->
        _detect_project_type t = (Some Python, python_markers t))
  /\ _detect_project_type [(["web"; "package.json"], Some "{}");
                           (["requirements.txt"], Some "")]
     = (Some Python, [(["requirements.txt"], Some "")]).
Proof.
  split; [exact detect_first_match|].
  split; [reflexivity|].
  split; [|reflexivity].
  intros t Hpy; rewrite detect_first_match; unfold priority_order; simpl.
  destruct (python_markers t); [contradiction|reflexivity].
Qed.

(** ** C6 *)

(** C6 as stated fails: setup.py is not in the listed marker set, yet a
    tree holding only setup.py is classified as python and setup.py is
    returned as its dependency file. *)
Lemma marker_set_counterexample :
  spec_marker_name "setup.py" = false
  /\ _detect_project_type [(["setup.py"], Some "")]
     = (Some Python, [(["setup.py"], Some "")]).
Proof. split; reflexivity. Qed.

(** C6 (as the code does it): the marker names are requirements.txt,
    setup.py, pyproject.toml, package.json, pom.xml, build.gradle,
    build.gradle.kts and *.csproj.  A tree gets no type exactly when it
    holds none of them, and then no dependency file; every returned
    dependency file is an entry of the tree with a marker name. *)
Theorem marker_set_closed (t : tree) :
  (fst (_detect_project_type t) = None <-> no_marker t = true)
  /\ (no_marker t = true -> _detect_project_type t = (None, []))
  /\ Forall (fun e => In e t /\ is_marker_name (basename (fst e)) = true)
       (snd (_detect_project_type t)).
Proof.
  split; [apply detect_none_iff|split; [|apply detect_files_marker]].
  intros H; apply detect_none_iff in H.
  destruct (_detect_project_type t) as [pt files] eqn:E; simpl in H; subst pt.
  rewrite detect_first_match in E.
  pose proof (first_match_none_nil (priority_order t)) as Hn.
  rewrite E in Hn; simpl in Hn; rewrite (Hn eq_refl); reflexivity.
Qed.

(** ** C7 *)

(** C7 as stated fails: the error result for a tree without markers has
    no dependency list at all, empty or not. *)
Lemma unknown_type_counterexample :
  _run env_all_2 "/repo" (Some []) = RunError "Could not determine project type"
  /\ result_dependencies (_run env_all_2 "/repo" (Some [])) <> Some [].
Proof. split; [reflexivity|discriminate]. Qed.

(** C7 (as the code does it): scanning an existing tree gives the error
    value {"error": "Could not determine project type"} exactly when the
    tree holds no marker file; that value is returned, carries no
    dependency list, and does not depend on the parsers or registries. *)
Theorem unknown_type_error_value (env : Env) (root : string) (t : tree) :
  (_run env root (Some t) = RunError "Could not determine project type"
   <-> no_marker t = true)
  /\ (no_marker t = true -> result_dependencies (_run env root (Some t)) = None).
Proof.
  assert (Hiff : _run env root (Some t) = RunError "Could not determine project type"
                 <-> no_marker t = true).
  { rewrite <- detect_none_iff; unfold _run.
    destruct (_detect_project_type t) as [[pt|] files]; simpl;
      split; intros H; congruence. }
  split; [exact Hiff|].
  intros H; apply Hiff in H; rewrite H; reflexivity.
Qed.

(** ** C8 *)

(** A package.json listing the package x both as a dependency and as a
    development dependency, and an npm registry at 2.0. *)
Definition dup_package_json : json :=
  JObj [("dependencies", JObj [("x", JStr "1.0")]);
        ("devDependencies", JObj [("x", JStr "1.0")])].

Definition env_dup : Env :=
  mkEnv (fun _ => Some dup_package_json) (fun _ => [])
        (fun _ => ProcRaised) (fun _ => ProcDone 0 ("2.0" ++ nl))
        (fun _ _ => HttpRaised).

(** C8 as stated fails: with x in both sections, the scan parses two
    dependencies named x, and the candidate for x matches both. *)
Lemma candidate_unique_match_counterexample :
  match _run env_dup "/repo" (Some [(["package.json"], Some "{}")]) with
  | RunReport _ _ deps (c :: _) =>
      length (filter (fun d => dep_name d =? cand_name c) deps) = 2%nat
  | _ => False
  end.
Proof. vm_compute; reflexivity. Qed.

(** C8 (as the code does it): in a completed scan every candidate has the
    name, file and current version of some dependency parsed in the same
    scan, and there are at most as many candidates as dependencies. *)
Theorem candidates_named_after_dependencies (env : Env) (root : string) (t : tree)
  (pt : ProjectType) (files : list string) (deps : list Dependency)
  (cands : list UpgradeCandidate)
  (Hrun : _run env root (Some t) = RunReport pt files deps cands) :
  Forall (fun c => exists d, In d deps /\ dep_name d = cand_name c
                             /\ dep_file d = cand_file c
                             /\ dep_version d = cand_current_version c) cands
  /\ (length cands <= length deps)%nat.
Proof.
  destruct (run_report_parts _ _ _ _ _ _ _ Hrun) as (_ & _ & _ & ->).
  apply find_upgrade_candidates_from.
  eapply Forall_impl; [|exact (run_dependencies_recorded _ _ _ _ _ _ _ Hrun)].
  intros d (e & _ & _ & Hm); exact Hm.
Qed.

Definition sample_tree : tree :=
  [(["sub"; "requirements.txt"], Some ("a==1.0" ++ nl ++ "b>=2.0"));
   (["package.json"], Some "{}")].

Definition sample_report : RunResult :=
  RunReport Python ["sub/requirements.txt"]
    [mkDependency "a" "1.0" (Some "==") None None None "/repo/sub/requirements.txt";
     mkDependency "b" "2.0" (Some ">=") None None None "/repo/sub/requirements.txt"]
    [mkCandidate "a" None None "1.0" "2.0" None "/repo/sub/requirements.txt"].

Lemma candidates_named_after_dependencies_witness :
  _run env_all_2 "/repo" (Some sample_tree) = sample_report
  /\ (length [mkCandidate "a" None None "1.0" "2.0" None "/repo/sub/requirements.txt"]
      <= length [mkDependency "a" "1.0" (Some "==") None None None "/repo/sub/requirements.txt";
                 mkDependency "b" "2.0" (Some ">=") None None None "/repo/sub/requirements.txt"])%nat.
Proof.
  assert (H : _run env_all_2 "/repo" (Some sample_tree) = sample_report) by reflexivity.
  split; [exact H|].
  exact (proj2 (candidates_named_after_dependencies env_all_2 "/repo" sample_tree
                  _ _ _ _ H)).
Defined.

(** ** C9 *)

(** C9: the report [_run] assembles holds the parser's list of dependency
    records itself, so each keeps the file it was parsed from (the path of a
    detected dependency file); the candidates are the checker's output on
    that list, each with the file of a dependency of the report, and there
    are at most as many candidates as dependencies. *)
Theorem report_preserves_provenance (env : Env) (root : string) (t : tree)
  (pt : ProjectType) (files : list string) (deps : list Dependency)
  (cands : list UpgradeCandidate)
  (Hrun : _run env root (Some t) = RunReport pt files deps cands) :
  deps = _parse_dependencies env root pt (snd (_detect_project_type t))
  /\ map dep_file deps
     = map dep_file (_parse_dependencies env root pt (snd (_detect_project_type t)))
  /\ Forall (fun d => exists e, In e (snd (_detect_project_type t))
                                /\ dep_file d = path_str root (fst e)) deps
  /\ cands = _find_upgrade_candidates env pt deps
  /\ Forall (fun c => exists d, In d deps /\ dep_file d = cand_file c) cands
  /\ (length cands <= length deps)%nat.
Proof.
  pose proof (run_dependencies_recorded _ _ _ _ _ _ _ Hrun) as Hrec.
  destruct (run_report_parts _ _ _ _ _ _ _ Hrun) as (_ & _ & Hdeps & Hcands).
  assert (Hm : Forall maven_consistent deps).
  { eapply Forall_impl; [|exact Hrec]. intros d (e & _ & _ & Hm); exact Hm. }
  destruct (find_upgrade_candidates_from env pt deps Hm) as [Hc Hlen].
  rewrite <- Hcands in Hc, Hlen.
  split; [exact Hdeps|].
  split; [rewrite <- Hdeps; reflexivity|].
  split.
  { eapply Forall_impl; [|exact Hrec].
    intros d (e & He & Hf & _); exists e; auto. }
  split; [exact Hcands|].
  split; [|exact Hlen].
  eapply Forall_impl; [|exact Hc].
  intros c (d & Hd & _ & Hf & _); exists d; auto.
Qed.

Lemma report_preserves_provenance_witness :
  _run env_all_2 "/repo" (Some sample_tree) = sample_report
  /\ Forall (fun d => exists e, In e (snd (_detect_project_type sample_tree))
                                /\ dep_file d = path_str "/repo" (fst e))
       [mkDependency "a" "1.0" (Some "==") None None None "/repo/sub/requirements.txt";
        mkDependency "b" "2.0" (Some ">=") None None None "/repo/sub/requirements.txt"].
Proof.
  assert (H : _run env_all_2 "/repo" (Some sample_tree) = sample_report) by reflexivity.
  split; [exact H|].
  exact (proj1 (proj2 (proj2 (report_preserves_provenance env_all_2 "/repo" sample_tree
                                 _ _ _ _ H)))).
Defined.

(** * Further properties of the scanner *)

(** ** String lemmas *)

(** [s] has no occurrence of the character [c]. *)
Fixpoint excludes_char (c : ascii) (s : string) : bool :=
  match s with
  | EmptyString => true
  | String d r => negb (Ascii.eqb c d) && excludes_char c r
  end.

Lemma excludes_char_app c x y :
  excludes_char c (x ++ y) = excludes_char c x && excludes_char c y.
Proof.
  induction x as [|d x IH]; simpl; [reflexivity|].
  rewrite IH, andb_assoc; reflexivity.
Qed.

Lemma rstrip_idem x : rstrip (rstrip x) = rstrip x.
Proof.
  induction x as [|c r IH]; simpl; [reflexivity|].
  destruct ((rstrip r =? "") && is_space c) eqn:E; [reflexivity|].
  simpl; rewrite IH, E; reflexivity.
Qed.

Lemma lstrip_head s :
  match lstrip s with EmptyString => True | String c _ => is_space c = false end.
Proof.
  induction s as [|c r IH]; simpl; [exact I|].
  destruct (is_space c) eqn:E; [exact IH|exact E].
Qed.

Lemma lstrip_rstrip x :
  match x with EmptyString => True | String c _ => is_space c = false end ->
  lstrip (rstrip x) = rstrip x.
Proof.
  destruct x as [|c r]; simpl; [reflexivity|].
  intros Hc; rewrite Hc, andb_false_r; simpl; rewrite Hc; reflexivity.
Qed.

Lemma strip_idem s : strip (strip s) = strip s.
Proof.
  unfold strip.
  rewrite (lstrip_rstrip (lstrip s) (lstrip_head s)), rstrip_idem; reflexivity.
Qed.

Lemma strip_prefix_app p s a : strip_prefix p s = Some a -> s = p ++ a.
Proof.
  revert s; induction p as [|c p IH]; intros s H; simpl in *.
  - injection H as ->; reflexivity.
  - destruct s as [|d s]; [discriminate|].
    destruct (Ascii.eqb_spec c d); [subst d|discriminate].
    rewrite (IH s H); reflexivity.
Qed.

Lemma strip_prefix_extend p x y z :
  strip_prefix p x = Some y -> strip_prefix p (x ++ z) = Some (y ++ z).
Proof.
  revert x; induction p as [|c p IH]; intros x H; simpl in *.
  - injection H as <-; reflexivity.
  - destruct x as [|d x]; [discriminate|]; simpl.
    destruct (Ascii.eqb c d); [apply IH, H|discriminate].
Qed.

Lemma split_once_app sep s b a : split_once sep s = Some (b, a) -> s = b ++ sep ++ a.
Proof.
  revert b; induction s as [|c r IH]; intros b H; simpl in H.
  - destruct (strip_prefix sep "") eqn:E; [|discriminate].
    injection H as <- <-; exact (strip_prefix_app _ _ _ E).
  - destruct (strip_prefix sep (String c r)) eqn:E.
    + injection H as <- <-; exact (strip_prefix_app _ _ _ E).
    + destruct (split_once sep r) as [[b' a']|]; [|discriminate].
      injection H as <- <-; simpl; rewrite (IH b' eq_refl); reflexivity.
Qed.

Lemma contains_empty sep : sep <> "" -> contains sep "" = false.
Proof. destruct sep; [congruence|reflexivity]. Qed.

(** The text before the first occurrence of a non-empty separator does not
    contain it. *)
Lemma split_once_first sep s b a :
  sep <> "" -> split_once sep s = Some (b, a) -> contains sep b = false.
Proof.
  intros Hsep; revert b; induction s as [|c r IH]; intros b H; simpl in H.
  - destruct (strip_prefix sep ""); [|discriminate].
    injection H as <- <-; apply contains_empty, Hsep.
  - destruct (strip_prefix sep (String c r)) eqn:E.
    + injection H as <- <-; apply contains_empty, Hsep.
    + destruct (split_once sep r) as [[b' a']|] eqn:Er; [|discriminate].
      injection H as <- <-.
      specialize (IH b' eq_refl).
      pose proof (split_once_app _ _ _ _ Er) as Hr; subst r.
      unfold contains; simpl.
      destruct (strip_prefix sep (String c b')) eqn:E'.
      * apply (strip_prefix_extend _ _ _ (sep ++ a')) in E'.
        simpl in E'; rewrite E' in E; discriminate.
      * unfold contains in IH; destruct (split_once sep b'); [discriminate|reflexivity].
Qed.

Lemma split_first_not_contains sep s :
  sep <> "" -> contains sep (split_first sep s) = false.
Proof.
  intros Hsep; unfold split_first.
  destruct (split_once sep s) as [[b a]|] eqn:E.
  - exact (split_once_first _ _ _ _ Hsep E).
  - unfold contains; rewrite E; reflexivity.
Qed.

Lemma contains_app_l sep x y : contains sep x = true -> contains sep (x ++ y) = true.
Proof.
  unfold contains; induction x as [|c x IH]; simpl.
  - destruct (strip_prefix sep "") eqn:E; [|discriminate]; intros _.
    apply (strip_prefix_extend _ _ _ y) in E; simpl in E.
    destruct y; simpl in *; rewrite E; reflexivity.
  - destruct (strip_prefix sep (String c x)) eqn:E; intros H.
    + apply (strip_prefix_extend _ _ _ y) in E; simpl in E; rewrite E; reflexivity.
    + destruct (strip_prefix sep (String c (x ++ y))); [reflexivity|].
      destruct (split_once sep x) as [[b a]|]; [|discriminate].
      specialize (IH eq_refl).
      destruct (split_once sep (x ++ y)) as [[? ?]|]; [reflexivity|discriminate].
Qed.

(** ** requirements.txt: how a line is split *)

Lemma requirements_line_split f l d :
  In d (collect (requirements_line f l)) ->
  exists n v op, dep_constraint d = Some op /\ strip l = n ++ op ++ v
    /\ dep_name d = strip n /\ dep_version d = strip v /\ dep_file d = f
    /\ contains "==" n = false
    /\ (op = "==" \/ (op = ">=" /\ contains "==" (strip l) = false
                      /\ contains ">=" n = false)).
Proof.
  assert (Heq : "==" <> "") by discriminate.
  assert (Hge : ">=" <> "") by discriminate.
  unfold requirements_line; pm_unfold.
  destruct ((strip l =? "") || startswith "#" (strip l)); simpl; [intros []|].
  unfold contains at 1.
  destruct (split_once "==" (strip l)) as [[n v]|] eqn:E1; simpl.
  - intros [<-|[]].
    exists n, v, "==".
    refine (conj eq_refl (conj (split_once_app _ _ _ _ E1) (conj eq_refl
      (conj eq_refl (conj eq_refl (conj (split_once_first _ _ _ _ Heq E1) _)))))).
    left; reflexivity.
  - unfold contains at 1.
    destruct (split_once ">=" (strip l)) as [[n v]|] eqn:E2; simpl; [|intros []].
    intros [<-|[]].
    assert (Hn : contains "==" (strip l) = false)
      by (unfold contains; rewrite E1; reflexivity).
    assert (Hn' : contains "==" n = false).
    { pose proof (split_once_app _ _ _ _ E2) as Hl; rewrite Hl in Hn.
      destruct (contains "==" n) eqn:E3; [|reflexivity].
      rewrite (contains_app_l _ _ (">=" ++ v) E3) in Hn; discriminate. }
    exists n, v, ">=".
    refine (conj eq_refl (conj (split_once_app _ _ _ _ E2) (conj eq_refl
      (conj eq_refl (conj eq_refl (conj Hn' _)))))).
    right; exact (conj eq_refl (conj Hn (split_once_first _ _ _ _ Hge E2))).
Qed.

Lemma split_newline_excludes cur s :
  excludes_char "010" cur = true ->
  Forall (fun l => excludes_char "010" l = true) (split_newline_from cur s).
Proof.
  revert cur; induction s as [|c r IH]; intros cur Hcur; simpl.
  - constructor; [exact Hcur|constructor].
  - destruct (Ascii.eqb c "010") eqn:Ec.
    + constructor; [exact Hcur|apply IH; reflexivity].
    + apply IH; rewrite excludes_char_app, Hcur; unfold excludes_char.
      rewrite Ascii.eqb_sym, Ec; reflexivity.
Qed.

Lemma available_versions_excludes out :
  Forall (fun l => excludes_char "010" l = true) (available_versions out).
Proof.
  unfold available_versions; apply Forall_forall; intros x Hx.
  apply in_flat_map in Hx as [line [Hl Hx]].
  pose proof (proj1 (Forall_forall _ _) (split_newline_excludes "" out eq_refl) line Hl)
    as Hline.
  destruct (split_once "Available versions: " line) as [[b a]|] eqn:E; [|destruct Hx].
  destruct Hx as [<-|[]].
  rewrite (split_once_app _ _ _ _ E), !excludes_char_app in Hline.
  apply andb_true_iff in Hline as [_ Hline]; apply andb_true_iff in Hline as [_ Hline].
  exact Hline.
Qed.

Lemma split_first_excludes c sep s :
  excludes_char c s = true -> excludes_char c (split_first sep s) = true.
Proof.
  unfold split_first; destruct (split_once sep s) as [[b a]|] eqn:E; [|auto].
  rewrite (split_once_app _ _ _ _ E), excludes_char_app.
  intros H; apply andb_true_iff in H as [H _]; exact H.
Qed.

(** A loop whose body raises at [x], after the iterations over [l1] that
    do not raise. *)
Lemma pm_for_raise_at {X} (f : X -> PM unit) (g : X -> list Dependency) l1 x l2 :
  (forall y, In y l1 -> appends (f y) (g y)) ->
  (forall s, f x s = (s, None)) ->
  forall s, pm_for f (l1 ++ x :: l2) s = ((s ++ flat_map g l1)%list, None).
Proof.
  induction l1 as [|y l1 IH]; intros H1 Hx s; simpl.
  - unfold pm_bind; rewrite Hx, app_nil_r; reflexivity.
  - unfold pm_bind; rewrite (H1 y (or_introl eq_refl) s).
    fold (pm_bind (f y) (fun _ => pm_for f (l1 ++ x :: l2)%list)).
    rewrite IH; [rewrite app_assoc; reflexivity| |exact Hx].
    intros z Hz; apply H1; right; exact Hz.
Qed.

Lemma package_entry_raises f dt n v :
  is_jstr v = false -> forall s, package_entry f dt (n, v) s = (s, None).
Proof. destruct v; try discriminate; reflexivity. Qed.

Lemma flat_map_nil {A B} (g : A -> list B) l :
  (forall x, In x l -> g x = []) -> flat_map g l = [].
Proof.
  induction l as [|x l IH]; intros H; simpl; [reflexivity|].
  rewrite (H x (or_introl eq_refl)); apply IH; intros y Hy; apply H; right; exact Hy.
Qed.

(** ** Parsers *)

(** X1: a [package.json] whose decoded value is not an object (a list, a
    string, a number, [true], [null]) yields no record; so does a file that
    cannot be read or decoded. *)
Theorem package_json_non_object_no_records f loaded :
  (forall kvs, loaded <> Some (JObj kvs)) -> _parse_package_json f loaded = [].
Proof.
  intros H; destruct loaded as [j|]; [|reflexivity].
  destruct j; try (exfalso; eapply H; reflexivity);
    unfold _parse_package_json, package_dep_type; pm_unfold; simpl;
    repeat match goal with |- context [if ?b then _ else _] => destruct b end;
    reflexivity.
Qed.

Lemma package_json_non_object_no_records_witness :
  (forall kvs, Some (JArr [JStr "dependencies"]) <> Some (JObj kvs))
  /\ _parse_package_json "/p" (Some (JArr [JStr "dependencies"])) = [].
Proof.
  split; [intros kvs; discriminate|].
  apply package_json_non_object_no_records; intros kvs; discriminate.
Defined.

(** X2: a non-string version in the [dependencies] section stops the
    parse: the records of the entries before it are returned, and neither
    the rest of the section nor [devDependencies] is read. *)
Theorem package_json_stops_at_non_string f kvs pre n v post :
  json_getitem "dependencies" (JObj kvs) = Some (JObj (pre ++ (n, v) :: post)) ->
  Forall (fun e => is_jstr (snd e) = true) pre ->
  is_jstr v = false ->
  _parse_package_json f (Some (JObj kvs))
  = flat_map (fun e => collect (package_entry f "dependencies" e)) pre.
Proof.
  intros Hget Hpre Hv.
  assert (Hsec : forall s, package_dep_type f (JObj kvs) "dependencies" s
     = ((s ++ flat_map (fun e => collect (package_entry f "dependencies" e)) pre)%list,
        None)).
  { intros s; unfold package_dep_type, json_contains; simpl.
    rewrite existsb_find; unfold json_getitem in *.
    destruct (find (fun kv => fst kv =? "dependencies") kvs) as [[k x]|];
      [|discriminate].
    injection Hget as ->; simpl.
    apply pm_for_raise_at; [|apply package_entry_raises, Hv].
    intros [m w] Hin; rewrite Forall_forall in Hpre.
    specialize (Hpre _ Hin); destruct w; try discriminate.
    apply package_entry_record. }
  unfold _parse_package_json, collect; simpl; unfold pm_bind, pm_ret.
  rewrite Hsec; reflexivity.
Qed.

Lemma package_json_stops_at_non_string_witness :
  _parse_package_json "/p"
    (Some (JObj [("dependencies", JObj [("x", JStr "^1"); ("y", JNum 2); ("z", JStr "3")]);
                 ("devDependencies", JObj [("w", JStr "4")])]))
  = flat_map (fun e => collect (package_entry "/p" "dependencies" e)) [("x", JStr "^1")].
Proof.
  apply (package_json_stops_at_non_string "/p" _ [("x", JStr "^1")] "y" (JNum 2)
           [("z", JStr "3")]); [reflexivity|repeat constructor|reflexivity].
Defined.

(** X3: every requirements.txt record comes from one line: the stripped
    line is [n ++ op ++ v] where [n] holds no [==], the record has name
    [strip n], version [strip v], constraint [op] and the file path; [op]
    is [==] (the first occurrence), or [>=] (its first occurrence) when the
    line holds no [==]. *)
Theorem requirements_record_split f c d :
  In d (_parse_requirements_txt f (Some c)) ->
  exists line n v op, In line (splitlines c) /\ strip line = n ++ op ++ v
    /\ dep_constraint d = Some op /\ dep_name d = strip n /\ dep_version d = strip v
    /\ dep_file d = f /\ contains "==" n = false
    /\ (op = "==" \/ (op = ">=" /\ contains "==" (strip line) = false
                      /\ contains ">=" n = false)).
Proof.
  rewrite parse_requirements_some; intros Hd.
  apply in_flat_map in Hd as [line [Hl Hd]].
  destruct (requirements_line_split _ _ _ Hd)
    as (n & v & op & H1 & H2 & H3 & H4 & H5 & H6 & H7).
  exists line, n, v, op; auto 10.
Qed.

Lemma requirements_record_split_witness :
  exists line n v op,
    In line (splitlines ("a==1.0==2" ++ nl ++ "b >= 2")) /\ strip line = n ++ op ++ v
    /\ Some ">=" = Some op /\ "b" = strip n /\ "2" = strip v
    /\ "/r" = "/r" /\ contains "==" n = false
    /\ (op = "==" \/ (op = ">=" /\ contains "==" (strip line) = false
                      /\ contains ">=" n = false)).
Proof.
  exact (requirements_record_split "/r" ("a==1.0==2" ++ nl ++ "b >= 2")
           (mkDependency "b" "2" (Some ">=") None None None "/r")
           ltac:(vm_compute; tauto)).
Defined.

(** X4: names and versions read from requirements.txt carry no leading or
    trailing whitespace. *)
Theorem requirements_fields_stripped f c d :
  In d (_parse_requirements_txt f c) ->
  strip (dep_name d) = dep_name d /\ strip (dep_version d) = dep_version d.
Proof.
  destruct c as [c|]; [|intros []].
  rewrite parse_requirements_some; intros Hd.
  apply in_flat_map in Hd as [line [_ Hd]].
  destruct (requirements_line_split _ _ _ Hd) as (n & v & op & _ & _ & -> & -> & _).
  split; apply strip_idem.
Qed.

Lemma requirements_fields_stripped_witness :
  strip "a" = "a" /\ strip "1.0" = "1.0".
Proof.
  exact (requirements_fields_stripped "/r" (Some (" a == 1.0 " ++ nl))
           (mkDependency "a" "1.0" (Some "==") None None None "/r")
           ltac:(vm_compute; tauto)).
Defined.


(** ** Reports *)

Lemma detect_python t :
  python_markers t <> [] -> _detect_project_type t = (Some Python, python_markers t).
Proof.
  intros H; rewrite detect_first_match; unfold priority_order; simpl.
  destruct (python_markers t); [congruence|reflexivity].
Qed.

(** X6: a python project with [setup.py] or [pyproject.toml] files but no
    [requirements.txt] is reported with those files, no dependency and no
    upgrade candidate: only requirements.txt files are parsed. *)
Theorem python_without_requirements_txt env root t :
  glob_name "requirements.txt" t = [] -> python_markers t <> [] ->
  _run env root (Some t)
  = RunReport Python (map (fun e => join "/" (fst e)) (python_markers t)) [] [].
Proof.
  intros Hreq Hpy; unfold _run; rewrite (detect_python t Hpy).
  assert (Hdeps : _parse_dependencies env root Python (python_markers t) = []).
  { apply flat_map_nil; intros [p content] Hin.
    unfold python_markers in Hin; rewrite Hreq in Hin; simpl in Hin.
    unfold parse_file.
    assert (Hb : (basename p =? "requirements.txt") = false).
    { apply in_app_or in Hin as [Hin|Hin]; apply filter_In in Hin as [_ Hin];
        simpl in Hin; apply String.eqb_eq in Hin; rewrite Hin; reflexivity. }
    rewrite Hb; reflexivity. }
  rewrite Hdeps; reflexivity.
Qed.

Lemma python_without_requirements_txt_witness :
  _run env_all_2 "/repo" (Some [(["setup.py"], Some "x"); (["lib"; "pyproject.toml"], None)])
  = RunReport Python ["setup.py"; "lib/pyproject.toml"] [] [].
Proof.
  exact (python_without_requirements_txt env_all_2 "/repo"
           [(["setup.py"], Some "x"); (["lib"; "pyproject.toml"], None)]
           eq_refl ltac:(discriminate)).
Defined.

(** X7: a project detected as gradle or dotnet is reported with its
    dependency files but with no dependency and no upgrade candidate. *)
Theorem gradle_dotnet_reports_empty env root t pt files deps cands :
  _run env root (Some t) = RunReport pt files deps cands ->
  pt = Gradle \/ pt = Dotnet -> deps = [] /\ cands = [].
Proof.
  intros H Hpt; destruct (run_report_parts _ _ _ _ _ _ _ H) as (_ & _ & Hd & Hc).
  assert (Hdeps : deps = []).
  { rewrite Hd; apply flat_map_nil; intros [p content] _.
    destruct Hpt as [->| ->]; reflexivity. }
  split; [exact Hdeps|rewrite Hc, Hdeps; reflexivity].
Qed.

Lemma gradle_dotnet_reports_empty_witness :
  [] = @nil Dependency /\ [] = @nil UpgradeCandidate.
Proof.
  exact (gradle_dotnet_reports_empty env_all_2 "/repo" [(["app"; "build.gradle"], Some "x")]
           Gradle ["app/build.gradle"] [] [] eq_refl (or_introl eq_refl)).
Defined.

(** ** Upgrade checks *)

(** X8: a pip candidate comes from a successful [pip index versions] run:
    its latest version is the text of the first [Available versions:] line
    up to the first [", "]; it contains neither [", "] nor a newline, and
    the candidate has no type, group or artifact id. *)
Theorem pip_latest_is_first_listed env d c :
  _check_python_upgrade env d = Some c ->
  exists out av rest, pip_index_versions env (dep_name d) = ProcDone 0 out
    /\ available_versions out = av :: rest
    /\ cand_latest_version c = split_first ", " av
    /\ contains ", " (cand_latest_version c) = false
    /\ excludes_char "010" (cand_latest_version c) = true
    /\ cand_type c = None /\ cand_group_id c = None /\ cand_artifact_id c = None.
Proof.
  unfold _check_python_upgrade, catch.
  destruct (pip_index_versions env (dep_name d)) as [|rc out] eqn:Ep; [discriminate|].
  destruct (Z.eqb_spec rc 0) as [->|]; [|discriminate].
  pose proof (available_versions_excludes out) as Hex.
  destruct (available_versions out) as [|av rest] eqn:Eav; [discriminate|].
  destruct (negb _); [|discriminate].
  intros H; injection H as <-.
  exists out, av, rest; simpl.
  refine (conj eq_refl (conj Eav (conj eq_refl (conj _ (conj _ (conj eq_refl
            (conj eq_refl eq_refl))))))).
  - apply split_first_not_contains; discriminate.
  - apply split_first_excludes; inversion Hex; assumption.
Qed.

Lemma pip_latest_is_first_listed_witness :
  exists out av rest, pip_index_versions env_all_2 "a" = ProcDone 0 out
    /\ available_versions out = av :: rest
    /\ "2.0" = split_first ", " av
    /\ contains ", " "2.0" = false
    /\ excludes_char "010" "2.0" = true
    /\ @None string = None /\ @None string = None /\ @None string = None.
Proof.
  exact (pip_latest_is_first_listed env_all_2
           (mkDependency "a" "1.0" (Some "==") None None None "/r")
           (mkCandidate "a" None None "1.0" "2.0" None "/r") eq_refl).
Defined.

(** X9: an npm candidate comes from a successful [npm view] run: its
    latest version is the stripped output, so it has no surrounding
    whitespace, and its type is the dependency's type, [dependencies] by
    default. *)
Theorem npm_candidate_shape env d c :
  _check_nodejs_upgrade env d = Some c ->
  exists out, npm_view_version env (dep_name d) = ProcDone 0 out
    /\ cand_latest_version c = strip out
    /\ strip (cand_latest_version c) = cand_latest_version c
    /\ cand_type c = Some (match dep_type d with Some t => t | None => "dependencies" end)
    /\ cand_group_id c = None /\ cand_artifact_id c = None.
Proof.
  unfold _check_nodejs_upgrade, catch.
  destruct (npm_view_version env (dep_name d)) as [|rc out] eqn:Ep; [discriminate|].
  destruct (Z.eqb_spec rc 0) as [->|]; [|discriminate].
  destruct (negb _); [|discriminate].
  intros H; injection H as <-.
  exists out; simpl.
  exact (conj eq_refl (conj eq_refl (conj (strip_idem out)
           (conj eq_refl (conj eq_refl eq_refl))))).
Qed.

Lemma npm_candidate_shape_witness :
  exists out, npm_view_version env_all_2 "x" = ProcDone 0 out
    /\ "2.0" = strip out /\ strip "2.0" = "2.0"
    /\ Some "dependencies" = Some "dependencies"
    /\ @None string = None /\ @None string = None.
Proof.
  exact (npm_candidate_shape env_all_2
           (mkDependency "x" "1.0" (Some "^") None None None "/p")
           (mkCandidate "x" None None "1.0" "2.0" (Some "dependencies") "/p") eq_refl).
Defined.

(** X10: a Maven candidate exists only for a dependency with group and
    artifact ids, after a search answered with status 200 and a positive
    [numFound]; its latest version is the [latestVersion] of the first
    document and it is named [groupId:artifactId]. *)
Theorem maven_candidate_shape env d c :
  _check_maven_upgrade env d = Some c ->
  exists g a body rest, dep_group_id d = Some g /\ dep_artifact_id d = Some a
    /\ maven_search env g a = HttpResponse 200 (Some body)
    /\ (numFound body > 0)%Z
    /\ docs body = Some (cand_latest_version c) :: rest
    /\ cand_name c = g ++ ":" ++ a /\ cand_group_id c = Some g
    /\ cand_artifact_id c = Some a /\ cand_type c = None.
Proof.
  unfold _check_maven_upgrade, catch.
  destruct (dep_group_id d) as [g|]; [|discriminate].
  destruct (dep_artifact_id d) as [a|]; [|discriminate].
  destruct (maven_search env g a) as [|st [body|]] eqn:Em; try discriminate;
    destruct (Z.eqb_spec st 200) as [->|]; try discriminate.
  destruct (Z.gtb (numFound body) 0) eqn:Hn; [|discriminate].
  destruct (docs body) as [|[v|] rest] eqn:Ed; try discriminate.
  destruct (negb _); [|discriminate].
  intros H; injection H as <-.
  exists g, a, body, rest; simpl.
  apply Z.gtb_lt in Hn.
  refine (conj eq_refl (conj eq_refl (conj Em (conj _ (conj Ed
            (conj eq_refl (conj eq_refl (conj eq_refl eq_refl)))))))).
  lia.
Qed.

Lemma maven_candidate_shape_witness :
  exists g a body rest, Some "org" = Some g /\ Some "lib" = Some a
    /\ maven_search env_all_2 g a = HttpResponse 200 (Some body)
    /\ (numFound body > 0)%Z
    /\ docs body = Some "2.0" :: rest
    /\ "org:lib" = g ++ ":" ++ a /\ Some "org" = Some g
    /\ Some "lib" = Some a /\ @None string = None.
Proof.
  exact (maven_candidate_shape env_all_2
           (mkDependency "org:lib" "1.0" None None (Some "org") (Some "lib") "/pom.xml")
           (mkCandidate "org:lib" (Some "org") (Some "lib") "1.0" "2.0" None "/pom.xml")
           eq_refl).
Defined.

(** The registry each project type consults. *)
Definition same_registry (pt : ProjectType) (env1 env2 : Env) : Prop :=
  match pt with
  | Python => forall n, pip_index_versions env1 n = pip_index_versions env2 n
  | Nodejs => forall n, npm_view_version env1 n = npm_view_version env2 n
  | Maven => forall g a, maven_search env1 g a = maven_search env2 g a
  | Gradle | Dotnet => True
  end.

(** X11: the upgrade candidates of a project type depend only on the
    registry of that type (pip for python, npm for nodejs, Maven Central
    for maven): two environments answering alike there give the same
    candidates. *)
Theorem candidates_depend_on_own_registry pt env1 env2 deps :
  same_registry pt env1 env2 ->
  _find_upgrade_candidates env1 pt deps = _find_upgrade_candidates env2 pt deps.
Proof.
  intros H.
  assert (Hc : forall d, check_upgrade env1 pt d = check_upgrade env2 pt d).
  { intros d; destruct pt; simpl in H; unfold check_upgrade; try reflexivity.
    - unfold _check_python_upgrade; rewrite H; reflexivity.
    - unfold _check_nodejs_upgrade; rewrite H; reflexivity.
    - unfold _check_maven_upgrade.
      destruct (dep_group_id d), (dep_artifact_id d); try reflexivity.
      rewrite H; reflexivity. }
  induction deps as [|d deps IH]; simpl; [reflexivity|].
  rewrite Hc, IH; reflexivity.
Qed.

Lemma candidates_depend_on_own_registry_witness :
  _find_upgrade_candidates env_all_2 Python
    [mkDependency "a" "1.0" (Some "==") None None None "/r"]
  = _find_upgrade_candidates
      (mkEnv (fun _ => None) (fun _ => []) (pip_index_versions env_all_2)
             (fun _ => ProcRaised) (fun _ _ => HttpRaised)) Python
      [mkDependency "a" "1.0" (Some "==") None None None "/r"].
Proof.
  apply candidates_depend_on_own_registry; intros n; reflexivity.
Defined.

(** * [utils/message_formatter.py]

    Strings are read as sequences of code points below 256 (Latin-1), as
    for the scanner.  The box character U+2502 lies outside that range: it
    is written by its UTF-8 bytes, none of which is whitespace, and the code
    never measures it. *)

Module MessageFormatter.

Fixpoint spaces (n : nat) : string :=
  match n with O => "" | S k => String " " (spaces k) end.

(** [s.ljust(width)] *)
Definition ljust (width : nat) (s : string) : string :=
  s ++ spaces (width - String.length s).

Fixpoint split_ws_from (cur s : string) : list string :=
  match s with
  | EmptyString => if cur =? "" then [] else [cur]
  | String c r =>
      if is_space c then
        (if cur =? "" then split_ws_from "" r else cur :: split_ws_from "" r)
      else split_ws_from (cur ++ String c "") r
  end.

(** [s.split()]: the maximal runs of non-whitespace characters. *)
Definition split_ws (s : string) : list string := split_ws_from "" s.

(** The box character U+2502. *)
Definition bar : string :=
  String (ascii_of_nat 226) (String (ascii_of_nat 148) (String (ascii_of_nat 130) "")).

(** [f"│ {s.ljust(max_width)} │"] *)
Definition box_line (max_width : nat) (s : string) : string :=
  bar ++ " " ++ ljust max_width s ++ " " ++ bar.

(** The loop [for word in line.split()] run from [current_line], followed
    by the final [if current_line]: the texts it boxes, in order. *)
Fixpoint wrap_words (max_width : nat) (current_line : string) (words : list string)
  : list string :=
  match words with
  | [] => if current_line =? "" then [] else [current_line]
  | word :: rest =>
      if (String.length current_line + String.length word + 1 <=? max_width)%nat
      then wrap_words max_width
             (if current_line =? "" then word else current_line ++ " " ++ word) rest
      else current_line :: wrap_words max_width word rest
  end.

(** The texts boxed for one line of the content. *)
Definition line_chunks (max_width : nat) (line : string) : list string :=
  if (String.length line <=? max_width)%nat then [line]
  else wrap_words max_width "" (split_ws line).

(** [wrapped_lines] at the end of [_wrap_content]. *)
Definition wrapped_lines (max_width : nat) (content : string) : list string :=
  flat_map (fun line => map (box_line max_width) (line_chunks max_width line))
           (split_newline content).

Definition _wrap_content (content : string) (max_width : nat) : string :=
  join nl (wrapped_lines max_width content).

Definition default_max_width : nat := 68.

Definition format_code_block (code : string) (language : string) : string :=
  "```" ++ language ++ nl ++ code ++ nl ++ "```".

(** The regex class [\w] on a Latin-1 character: letters, digits (with the
    superscripts and fractions) and the underscore. *)
Definition is_word_char (c : ascii) : bool :=
  let n := nat_of_ascii c in
  (((48 <=? n) && (n <=? 57)) || ((65 <=? n) && (n <=? 90)) || (n =? 95)
   || ((97 <=? n) && (n <=? 122))
   || (n =? 170) || (n =? 178) || (n =? 179) || (n =? 181) || (n =? 185)
   || (n =? 186) || ((188 <=? n) && (n <=? 190)) || ((192 <=? n) && (n <=? 214))
   || ((216 <=? n) && (n <=? 246)) || ((248 <=? n) && (n <=? 255)))%nat.

(** The greedy first group, [\w] repeated: the longest prefix of word
    characters, and the rest. *)
Fixpoint span_word (s : string) : string * string :=
  match s with
  | EmptyString => (EmptyString, EmptyString)
  | String c r =>
      if is_word_char c then let (w, rest) := span_word r in (String c w, rest)
      else (EmptyString, s)
  end.

(** A match of the pattern of [extract_code_blocks] at the start of [s]:
    the two groups and the text after the match.  After the greedy [\w*]
    the pattern needs a newline, which is no word character, so giving
    back word characters never helps; the lazy [[\s\S]*?] ends at the
    first newline followed by three backticks. *)
Definition match_block (s : string) : option (string * string * string) :=
  match strip_prefix "```" s with
  | None => None
  | Some r =>
      let (language, r1) := span_word r in
      match strip_prefix nl r1 with
      | None => None
      | Some r2 =>
          match split_once (nl ++ "```") r2 with
          | Some (code, rest) => Some (language, code, rest)
          | None => None
          end
      end
  end.

(** [re.findall]: the matches found scanning from left to right, resuming
    after each match; [fuel] bounds the number of positions tried. *)
Fixpoint scan (fuel : nat) (s : string) : list (string * string) :=
  match fuel with
  | O => []
  | S n =>
      match s with
      | EmptyString => []
      | String _ r =>
          match match_block s with
          | Some (language, code, rest) => (language, code) :: scan n rest
          | None => scan n r
          end
      end
  end.

(** The list of [{language, code}] dicts, as pairs. *)
Definition extract_code_blocks (text : string) : list (string * string) :=
  scan (String.length text) text.

Fixpoint forall_chars (p : ascii -> bool) (s : string) : bool :=
  match s with
  | EmptyString => true
  | String c r => p c && forall_chars p r
  end.

End MessageFormatter.

Import MessageFormatter.

Example wrap_sample :
  wrapped_lines 10 ("short" ++ nl ++ "a bb ccc dddd eeeee")
  = [box_line 10 "short"; box_line 10 "a bb ccc"; box_line 10 "dddd eeeee"].
Proof. reflexivity. Qed.

Example extract_sample :
  extract_code_blocks ("see" ++ nl ++ format_code_block "x = 1" "python" ++ nl
                       ++ format_code_block "ls" "")
  = [("python", "x = 1"); ("", "ls")].
Proof. reflexivity. Qed.

(** ** Lemmas on the formatter *)

Lemma str_app_assoc x y z : (x ++ y) ++ z = x ++ (y ++ z).
Proof. induction x as [|c x IH]; simpl; [reflexivity|rewrite IH; reflexivity]. Qed.

Lemma str_app_nil_r x : x ++ "" = x.
Proof. induction x as [|c x IH]; simpl; [reflexivity|rewrite IH; reflexivity]. Qed.

Lemma str_length_app x y : String.length (x ++ y) = (String.length x + String.length y)%nat.
Proof. induction x as [|c x IH]; simpl; [reflexivity|rewrite IH; reflexivity]. Qed.

Lemma spaces_length n : String.length (spaces n) = n.
Proof. induction n as [|n IH]; simpl; [reflexivity|rewrite IH; reflexivity]. Qed.

Lemma ljust_length w s :
  (String.length s <= w)%nat -> String.length (ljust w s) = w.
Proof. intros H; unfold ljust; rewrite str_length_app, spaces_length; lia. Qed.

Lemma ljust_long w s : (w < String.length s)%nat -> ljust w s = s.
Proof.
  intros H; unfold ljust.
  replace (w - String.length s)%nat with 0%nat by lia.
  apply str_app_nil_r.
Qed.

Definition is_word (x : string) : Prop :=
  x <> "" /\ forall_chars (fun c => negb (is_space c)) x = true.

Lemma forall_chars_app p x y :
  forall_chars p (x ++ y) = forall_chars p x && forall_chars p y.
Proof.
  induction x as [|c x IH]; simpl; [reflexivity|rewrite IH, andb_assoc; reflexivity].
Qed.

Lemma split_ws_from_space cur x sp y :
  is_space sp = true ->
  split_ws_from cur (x ++ String sp y) = (split_ws_from cur x ++ split_ws y)%list.
Proof.
  intros Hsp; revert cur; induction x as [|c x IH]; intros cur; simpl.
  - rewrite Hsp; destruct (cur =? ""); reflexivity.
  - destruct (is_space c); [|apply IH].
    destruct (cur =? ""); [apply IH|rewrite IH; reflexivity].
Qed.

Lemma split_ws_from_word cur w :
  forall_chars (fun c => negb (is_space c)) w = true -> cur ++ w <> "" ->
  split_ws_from cur w = [cur ++ w].
Proof.
  revert cur; induction w as [|c w IH]; intros cur Hw Hne; simpl.
  - rewrite str_app_nil_r in *.
    destruct (String.eqb_spec cur ""); [contradiction|reflexivity].
  - simpl in Hw; apply andb_true_iff in Hw as [Hc Hw].
    apply negb_true_iff in Hc; rewrite Hc.
    rewrite IH; [rewrite str_app_assoc; reflexivity|exact Hw|].
    rewrite str_app_assoc; simpl; destruct cur; discriminate.
Qed.

Lemma split_ws_word w : is_word w -> split_ws w = [w].
Proof. intros [Hne Hw]; apply (split_ws_from_word "" w Hw Hne). Qed.

Lemma split_ws_from_words cur s :
  forall_chars (fun c => negb (is_space c)) cur = true ->
  Forall is_word (split_ws_from cur s).
Proof.
  revert cur; induction s as [|c r IH]; intros cur Hcur; simpl.
  - destruct (String.eqb_spec cur ""); repeat constructor; auto.
  - destruct (is_space c) eqn:Hc.
    + destruct (String.eqb_spec cur ""); [apply IH; reflexivity|].
      constructor; [split; auto|apply IH; reflexivity].
    + apply IH; rewrite forall_chars_app, Hcur; simpl; rewrite Hc; reflexivity.
Qed.

Lemma split_ws_words s : Forall is_word (split_ws s).
Proof. apply split_ws_from_words; reflexivity. Qed.

Lemma wrap_words_split w cur words :
  Forall is_word words ->
  flat_map split_ws (wrap_words w cur words) = (split_ws cur ++ words)%list.
Proof.
  revert cur; induction words as [|word words IH]; intros cur Hw; simpl.
  - destruct (String.eqb_spec cur "") as [->|]; simpl; [reflexivity|].
    rewrite !app_nil_r; reflexivity.
  - inversion Hw as [|? ? Hword Hrest]; subst.
    destruct (_ <=? w)%nat.
    + rewrite IH by exact Hrest.
      destruct (String.eqb_spec cur "") as [->|].
      * rewrite (split_ws_word word Hword); reflexivity.
      * unfold split_ws at 1; rewrite (split_ws_from_space "" cur " " word eq_refl).
        rewrite (split_ws_word word Hword).
        rewrite <- app_assoc; reflexivity.
    + simpl; rewrite IH by exact Hrest.
      rewrite (split_ws_word word Hword); reflexivity.
Qed.

Lemma wrap_words_width w all cur words :
  ((String.length cur <= w)%nat \/ In cur all) -> incl words all ->
  Forall (fun c => (String.length c <= w)%nat \/ In c all) (wrap_words w cur words).
Proof.
  revert cur; induction words as [|word words IH]; intros cur Hcur Hincl; simpl.
  - destruct (cur =? ""); [constructor|constructor; [exact Hcur|constructor]].
  - destruct (String.length cur + String.length word + 1 <=? w)%nat eqn:Hfit.
    + apply Nat.leb_le in Hfit.
      apply IH; [|intros x Hx; apply Hincl; right; exact Hx].
      left; destruct (String.eqb_spec cur "") as [->|]; [simpl in Hfit; lia|].
      rewrite str_length_app; simpl; lia.
    + constructor; [exact Hcur|].
      apply IH; [right; apply Hincl; left; reflexivity|].
      intros x Hx; apply Hincl; right; exact Hx.
Qed.

(** ** Wrapping *)

(** X12: every line [_wrap_content] produces is a boxed text whose padded
    interior is exactly [max_width] characters wide, except a single word
    of the content longer than [max_width], which is boxed unpadded and
    overflows the box. *)
Theorem wrapped_line_width w content l :
  In l (wrapped_lines w content) ->
  exists x, l = box_line w x
    /\ (((String.length x <= w)%nat /\ String.length (ljust w x) = w)
        \/ ((w < String.length x)%nat /\ ljust w x = x
            /\ In x (flat_map split_ws (split_newline content)))).
Proof.
  unfold wrapped_lines; intros Hl.
  apply in_flat_map in Hl as [line [Hline Hl]].
  apply in_map_iff in Hl as [x [<- Hx]].
  exists x; split; [reflexivity|].
  assert (Hx' : (String.length x <= w)%nat \/ In x (split_ws line)).
  { unfold line_chunks in Hx.
    destruct (String.length line <=? w)%nat eqn:Hs.
    - destruct Hx as [<-|[]]; left; apply Nat.leb_le, Hs.
    - exact (proj1 (Forall_forall _ _)
               (wrap_words_width w (split_ws line) "" (split_ws line)
                  (or_introl (Nat.le_0_l w)) (fun y Hy => Hy)) x Hx). }
  destruct (Nat.le_gt_cases (String.length x) w) as [Hle|Hgt].
  - left; split; [exact Hle|apply ljust_length, Hle].
  - right; split; [exact Hgt|split; [apply ljust_long, Hgt|]].
    destruct Hx' as [Hle|Hin]; [lia|].
    apply in_flat_map; exists line; split; assumption.
Qed.

Lemma wrapped_line_width_witness :
  exists x, box_line 10 "abcdefghijkl" = box_line 10 x
    /\ (((String.length x <= 10)%nat /\ String.length (ljust 10 x) = 10%nat)
        \/ ((10 < String.length x)%nat /\ ljust 10 x = x
            /\ In x (flat_map split_ws (split_newline "abcdefghijkl mn")))).
Proof.
  exact (wrapped_line_width 10 "abcdefghijkl mn" (box_line 10 "abcdefghijkl")
           ltac:(vm_compute; tauto)).
Defined.

(** X13: wrapping keeps the words of each line: the words of the texts
    boxed for a line are the words of the line, in order. *)
Theorem line_chunks_keep_words w line :
  flat_map split_ws (line_chunks w line) = split_ws line.
Proof.
  unfold line_chunks.
  destruct (String.length line <=? w)%nat; simpl; [apply app_nil_r|].
  rewrite wrap_words_split by apply split_ws_words; reflexivity.
Qed.

(** X14: when no line of the content is longer than [max_width], each line
    gives exactly one box line, the line padded to [max_width]; blank lines
    included. *)
Theorem wrapped_short_lines w content :
  Forall (fun line => (String.length line <= w)%nat) (split_newline content) ->
  wrapped_lines w content = map (box_line w) (split_newline content).
Proof.
  unfold wrapped_lines; induction (split_newline content) as [|line ls IH];
    intros H; simpl; [reflexivity|].
  inversion H as [|? ? Hl Hls]; subst.
  assert (Hc : line_chunks w line = [line])
    by (unfold line_chunks; apply Nat.leb_le in Hl; rewrite Hl; reflexivity).
  cbn [flat_map]; rewrite Hc, IH by exact Hls; reflexivity.
Qed.

Lemma wrapped_short_lines_witness :
  wrapped_lines 68 ("Hello" ++ nl ++ nl ++ "world")
  = [box_line 68 "Hello"; box_line 68 ""; box_line 68 "world"].
Proof.
  apply (wrapped_short_lines 68 ("Hello" ++ nl ++ nl ++ "world")).
  repeat constructor; simpl; lia.
Defined.

(** X15: two edge cases of a line longer than [max_width]: if it holds only
    whitespace it gives no box line at all; if its first word is at least
    [max_width] long, its first box line is blank. *)
Theorem long_line_edges w line :
  (w < String.length line)%nat ->
  (split_ws line = [] -> line_chunks w line = [])
  /\ (forall word rest, split_ws line = word :: rest -> (w <= String.length word)%nat ->
        hd_error (line_chunks w line) = Some "").
Proof.
  intros Hlong; unfold line_chunks.
  assert (Hn : (String.length line <=? w)%nat = false) by (apply Nat.leb_gt; exact Hlong).
  rewrite Hn; split.
  - intros ->; reflexivity.
  - intros word rest -> Hw; simpl.
    assert (Hf : (String.length word + 1 <=? w)%nat = false) by (apply Nat.leb_gt; lia).
    rewrite Hf; reflexivity.
Qed.

Lemma long_line_edges_witness :
  (line_chunks 4 "      " = [])
  /\ hd_error (line_chunks 4 "abcdef gh") = Some "".
Proof.
  destruct (long_line_edges 4 "      " ltac:(simpl; lia)) as [H1 _].
  destruct (long_line_edges 4 "abcdef gh" ltac:(simpl; lia)) as [_ H2].
  split; [apply H1; reflexivity|apply (H2 "abcdef" ["gh"]); [reflexivity|simpl; lia]].
Defined.

(** ** Code blocks *)

Lemma strip_prefix_self p y : strip_prefix p (p ++ y) = Some y.
Proof. induction p as [|c p IH]; simpl; [reflexivity|rewrite Ascii.eqb_refl; exact IH]. Qed.

Lemma strip_prefix_cons a p b s :
  strip_prefix (String a p) (String b s) = if Ascii.eqb a b then strip_prefix p s else None.
Proof. reflexivity. Qed.

Lemma split_once_cons sep c r :
  split_once sep (String c r)
  = match strip_prefix sep (String c r) with
    | Some a => Some (EmptyString, a)
    | None => match split_once sep r with
              | Some (b, a) => Some (String c b, a)
              | None => None
              end
    end.
Proof. reflexivity. Qed.

(** A match of a prefix [p] free of the character [d] lies before any [d]. *)
Lemma strip_prefix_within d p x z r :
  excludes_char d p = true -> strip_prefix p (x ++ String d z) = Some r ->
  exists r', strip_prefix p x = Some r'.
Proof.
  revert x; induction p as [|a p IH]; intros x Hp H; [eexists; reflexivity|].
  simpl in Hp; apply andb_true_iff in Hp as [Ha Hp].
  destruct x as [|b x]; simpl in H.
  - rewrite Ascii.eqb_sym in Ha; rewrite (proj1 (negb_true_iff _) Ha) in H; discriminate.
  - simpl; destruct (Ascii.eqb a b); [exact (IH x Hp H)|discriminate].
Qed.

(** The closing fence is found right after a code free of it. *)
Lemma fence_first x y :
  contains (nl ++ "```") x = false -> split_once (nl ++ "```") (x ++ nl ++ "```" ++ y) = Some (x, y).
Proof.
  induction x as [|c x IH]; intros H.
  - reflexivity.
  - unfold contains in H; rewrite split_once_cons in H.
    destruct (strip_prefix (nl ++ "```") (String c x)) eqn:E1; [discriminate|].
    destruct (split_once (nl ++ "```") x) as [[b a]|] eqn:E2; [discriminate|].
    assert (IH' : split_once (nl ++ "```") (x ++ nl ++ "```" ++ y) = Some (x, y))
      by (apply IH; unfold contains; rewrite E2; reflexivity).
    change (String c x ++ nl ++ "```" ++ y) with (String c (x ++ nl ++ "```" ++ y)).
    rewrite split_once_cons, IH'.
    destruct (strip_prefix (nl ++ "```") (String c (x ++ nl ++ "```" ++ y))) eqn:E3;
      [exfalso|reflexivity].
    change (nl ++ "```") with (String "010" "```") in E1, E3.
    rewrite strip_prefix_cons in E1, E3.
    destruct (Ascii.eqb "010" c); [|discriminate].
    destruct (strip_prefix_within "010" "```" x ("```" ++ y) s eq_refl E3) as [r' Hr'].
    rewrite Hr' in E1; discriminate.
Qed.

Lemma span_word_app s w r :
  span_word s = (w, r) -> s = w ++ r /\ forall_chars is_word_char w = true.
Proof.
  revert w r; induction s as [|c s IH]; intros w r H; simpl in H.
  - injection H as <- <-; split; reflexivity.
  - destruct (is_word_char c) eqn:Hc.
    + destruct (span_word s) as [w' r'] eqn:E; injection H as <- <-.
      destruct (IH w' r' eq_refl) as [-> Hw]; simpl; rewrite Hc, Hw; split; reflexivity.
    + injection H as <- <-; split; reflexivity.
Qed.

Lemma span_word_stop w r :
  forall_chars is_word_char w = true -> span_word (w ++ nl ++ r) = (w, nl ++ r).
Proof.
  induction w as [|c w IH]; intros Hw; [reflexivity|].
  simpl in Hw; apply andb_true_iff in Hw as [Hc Hw].
  change (String c w ++ nl ++ r) with (String c (w ++ nl ++ r)).
  change (span_word (String c (w ++ nl ++ r)))
    with (if is_word_char c then let (w', rest) := span_word (w ++ nl ++ r) in
                                 (String c w', rest)
          else (EmptyString, String c (w ++ nl ++ r))).
  rewrite Hc, (IH Hw); reflexivity.
Qed.

(** What a match at the start of [s] consists of. *)
Lemma match_block_parts s language code rest :
  match_block s = Some (language, code, rest) ->
  s = format_code_block code language ++ rest
  /\ forall_chars is_word_char language = true
  /\ contains (nl ++ "```") code = false.
Proof.
  unfold match_block.
  destruct (strip_prefix "```" s) as [r|] eqn:E0; [|discriminate].
  destruct (span_word r) as [l r1] eqn:E1.
  destruct (strip_prefix nl r1) as [r2|] eqn:E2; [|discriminate].
  destruct (split_once (nl ++ "```") r2) as [[c a]|] eqn:E3; [|discriminate].
  intros H; injection H as <- <- <-.
  destruct (span_word_app _ _ _ E1) as [Hr Hl].
  assert (Hne : nl ++ "```" <> "") by discriminate.
  split; [|split; [exact Hl|exact (split_once_first _ _ _ _ Hne E3)]].
  rewrite (strip_prefix_app _ _ _ E0), Hr, (strip_prefix_app _ _ _ E2),
    (split_once_app _ _ _ _ E3).
  unfold format_code_block; rewrite !str_app_assoc; reflexivity.
Qed.

Lemma match_block_format code language t :
  forall_chars is_word_char language = true -> contains (nl ++ "```") code = false ->
  match_block (format_code_block code language ++ t) = Some (language, code, t).
Proof.
  intros Hl Hc; unfold match_block, format_code_block.
  rewrite !str_app_assoc, strip_prefix_self, (span_word_stop _ _ Hl), strip_prefix_self.
  rewrite (fence_first _ _ Hc); reflexivity.
Qed.

Lemma match_block_shorter s language code rest :
  match_block s = Some (language, code, rest) -> (String.length rest < String.length s)%nat.
Proof.
  intros H; destruct (match_block_parts _ _ _ _ H) as [-> _].
  unfold format_code_block; rewrite !str_length_app; simpl; lia.
Qed.

Lemma scan_fuel n m s :
  (String.length s <= n)%nat -> (String.length s <= m)%nat -> scan n s = scan m s.
Proof.
  revert m s; induction n as [|n IH]; intros m s Hn Hm.
  - destruct s; [destruct m; reflexivity|simpl in Hn; lia].
  - destruct s as [|c r]; [destruct m; reflexivity|].
    destruct m as [|m]; [simpl in Hm; lia|]; simpl.
    destruct (match_block (String c r)) as [[[l code] rest]|] eqn:E.
    + apply match_block_shorter in E; simpl in E, Hn, Hm.
      f_equal; apply IH; lia.
    + simpl in Hn, Hm; apply IH; lia.
Qed.

Lemma scan_parts n s language code :
  In (language, code) (scan n s) ->
  (exists pre post, s = pre ++ format_code_block code language ++ post)
  /\ forall_chars is_word_char language = true
  /\ contains (nl ++ "```") code = false.
Proof.
  revert s; induction n as [|n IH]; intros s H; [destruct H|].
  destruct s as [|c r]; [destruct H|]; simpl in H.
  destruct (match_block (String c r)) as [[[l cd] rest]|] eqn:E.
  - destruct (match_block_parts _ _ _ _ E) as (Hs & Hl & Hc).
    destruct H as [Heq|H].
    + injection Heq as -> ->.
      split; [exists "", rest; exact Hs|split; assumption].
    + destruct (IH rest H) as ((pre & post & Hr) & Hl' & Hc').
      split; [|split; assumption].
      exists (format_code_block cd l ++ pre), post.
      rewrite Hs, Hr, str_app_assoc; reflexivity.
  - destruct (IH r H) as ((pre & post & Hr) & Hl' & Hc').
    split; [|split; assumption].
    exists (String c pre), post; rewrite Hr; reflexivity.
Qed.

(** X16: a code block made by [format_code_block] is extracted back as its
    language and code, whatever text follows it, provided the language is
    made of word characters and the code holds no newline followed by
    three backticks. *)
Theorem format_extract_roundtrip code language t :
  forall_chars is_word_char language = true -> contains (nl ++ "```") code = false ->
  extract_code_blocks (format_code_block code language ++ t)
  = (language, code) :: extract_code_blocks t.
Proof.
  intros Hl Hc; unfold extract_code_blocks.
  pose proof (match_block_format code language t Hl Hc) as Hm.
  pose proof (match_block_shorter _ _ _ _ Hm) as Hlen.
  destruct (format_code_block code language ++ t) as [|c r] eqn:E; [discriminate|].
  simpl String.length in *; simpl; rewrite Hm; f_equal.
  apply scan_fuel; lia.
Qed.

Lemma format_extract_roundtrip_witness :
  extract_code_blocks (format_code_block ("a = 1" ++ nl ++ "``") "py3" ++ "tail")
  = [("py3", "a = 1" ++ nl ++ "``")].
Proof.
  rewrite (format_extract_roundtrip ("a = 1" ++ nl ++ "``") "py3" "tail" eq_refl eq_refl).
  reflexivity.
Defined.

(** X17: every extracted block occurs in the text as the output of
    [format_code_block] on its code and language; its language is made of
    word characters and its code holds no newline followed by three
    backticks. *)
Theorem extracted_blocks_occur text language code :
  In (language, code) (extract_code_blocks text) ->
  (exists pre post, text = pre ++ format_code_block code language ++ post)
  /\ forall_chars is_word_char language = true
  /\ contains (nl ++ "```") code = false.
Proof. apply scan_parts. Qed.

Lemma extracted_blocks_occur_witness :
  (exists pre post, "x" ++ format_code_block "ls" "sh" = pre ++ format_code_block "ls" "sh" ++ post)
  /\ forall_chars is_word_char "sh" = true
  /\ contains (nl ++ "```") "ls" = false.
Proof.
  exact (extracted_blocks_occur ("x" ++ format_code_block "ls" "sh") "sh" "ls"
           ltac:(vm_compute; tauto)).
Defined.
